(** * ivande_combiner: shallow embedding of [transformers.py] and [utils.py]

    pandas DataFrames are heap objects: a frame reference is an index into
    a heap of tables, [X.copy()] allocates a new frame, and [X_[c] = v] or
    [drop(..., inplace=True)] overwrite a frame in place.  Numbers are
    modelled as exact rationals ([Q]) instead of floats; NaN and None are
    the single null value [VNull].  sklearn's scalers and imputers are
    opaque library calls, passed as the parameter [sk_fit]. *)

From Stdlib Require Import QArith Qround ZArith Lia Ascii Permutation.
From stdpp Require Import base list strings.

Open Scope string_scope.
Open Scope list_scope.

(* ------------------------------------------------------------------ *)
(** ** Data model *)

Record date := mkdate { dyear : Z; dmonth : Z; dday : Z }.

Inductive value :=
| VNull
| VNum (q : Q)
| VStr (s : string)
| VDate (d : date).

(** pandas dtypes that the transformers produce or inspect. *)
Inductive dtype := TNum | TStr | TDatetime | TCategory | TObject.

Record column := mkcol { ctype : dtype; cells : list value }.

(** A DataFrame: ordered named columns. *)
Definition table := list (string * column).

(** The errors raised by the code. *)
Inductive error :=
| ValueError (msg : string)
| NotFittedError (msg : string)
| KeyError (key : string)
| TypeError (msg : string)
| AttributeError (msg : string).

Inductive res (A : Type) := Ok (a : A) | Err (e : error).
Arguments Ok {A} a.
Arguments Err {A} e.

(** Python objects passed as [X]: a DataFrame reference or anything else. *)
Inductive pyobj := OFrame (l : nat) | OOther.

(** The heap of DataFrames; exceptions keep the heap as it was when raised. *)
Abbreviation heap := (list table).
Definition M (A : Type) := heap -> res A * heap.

Definition retM {A} (a : A) : M A := fun h => (Ok a, h).
Definition throw {A} (e : error) : M A := fun h => (Err e, h).
Definition bindM {A B} (m : M A) (k : A -> M B) : M B :=
  fun h => match m h with
           | (Ok a, h') => k a h'
           | (Err e, h') => (Err e, h')
           end.
Definition liftR {A} (r : res A) : M A :=
  match r with Ok a => retM a | Err e => throw e end.

Notation "'let!' x ':=' m 'in' k" := (bindM m (fun x => k))
  (at level 200, x name, m at level 100, k at level 200).

Definition bindR {A B} (r : res A) (k : A -> res B) : res B :=
  match r with Ok a => k a | Err e => Err e end.
Notation "'let?' x ':=' r 'in' k" := (bindR r (fun x => k))
  (at level 200, x name, r at level 100, k at level 200).

(** Heap primitives. *)
Definition load (l : nat) : M table :=
  fun h => match h !! l with
           | Some t => (Ok t, h)
           | None => (Err (TypeError "dangling frame"), h)
           end.
Definition alloc (t : table) : M nat := fun h => (Ok (length h), h ++ [t]).
Definition store (l : nat) (t : table) : M unit := fun h => (Ok tt, <[l := t]> h).

(** Monadic loops: [for x in xs: body]. *)
Fixpoint forM {A} (xs : list A) (body : A -> M unit) : M unit :=
  match xs with
  | [] => retM tt
  | x :: xs' => let! _ := body x in forM xs' body
  end.

Fixpoint forR {A B} (xs : list A) (f : A -> res B) : res (list B) :=
  match xs with
  | [] => Ok []
  | x :: xs' => let? y := f x in let? ys := forR xs' f in Ok (y :: ys)
  end.

(* ------------------------------------------------------------------ *)
(** ** Column-level pandas operations *)

Definition columns (t : table) : list string := map fst t.

Definition mem (c : string) (cs : list string) : bool :=
  existsb (String.eqb c) cs.

(** [X[c]] *)
Definition getitem (t : table) (c : string) : res column :=
  match find (fun p => String.eqb (fst p) c) t with
  | Some (_, col) => Ok col
  | None => Err (KeyError c)
  end.

(** [X[[c1; ...]]] : a new frame, [KeyError] if a label is missing. *)
Definition getitems (t : table) (cs : list string) : res table :=
  forR cs (fun c => let? col := getitem t c in Ok (c, col)).

(** [X[c] = col]: replace the column in place, or append it. *)
Definition setitem (t : table) (c : string) (col : column) : table :=
  if mem c (columns t)
  then map (fun p => if String.eqb (fst p) c then (c, col) else p) t
  else t ++ [(c, col)].

(** [X[[c1; ...]] = df]: the columns of [df] are assigned by position. *)
Fixpoint setitems (t : table) (cs : list string) (df : table) : table :=
  match cs, df with
  | c :: cs', (_, col) :: df' => setitems (setitem t c col) cs' df'
  | _, _ => t
  end.

(** [X.drop(cs, axis=1)]: [KeyError] if a label is missing. *)
Definition drop (t : table) (cs : list string) : res table :=
  match find (fun c => negb (mem c (columns t))) cs with
  | Some c => Err (KeyError c)
  | None => Ok (List.filter (fun p => negb (mem (fst p) cs)) t)
  end.

(** [X.isnull().all()] for one column (vacuously true without rows). *)
Definition all_null (col : column) : bool :=
  forallb (fun v => match v with VNull => true | _ => false end) (cells col).

(* ------------------------------------------------------------------ *)
(** ** [utils.py] *)

(** [check_fill]: [X] must be a DataFrame. *)
Definition check_fill (X : pyobj) : M unit :=
  match X with
  | OFrame _ => retM tt
  | OOther => throw (ValueError "X is not pandas DataFrame")
  end.

(** [check_transform]: [fitted_item] is passed as its Python truthiness. *)
Definition check_transform (X : pyobj) (fitted_item : bool)
    (transformer_name : string) (is_check_fill : bool) : M unit :=
  let! _ := check_fill X in
  if is_check_fill && negb fitted_item
  then throw (NotFittedError (transformer_name ++ " transformer was not fitted"))
  else retM tt.

(** Truthiness of the Python containers used as fitted state. *)
Definition truthy_list {A} (o : option (list A)) : bool :=
  match o with Some (_ :: _) => true | _ => false end.

(** Reading the frame behind [X] once [check_fill] has passed. *)
Definition frame_of (X : pyobj) : M table :=
  match X with
  | OFrame l => load l
  | OOther => throw (ValueError "X is not pandas DataFrame")
  end.

(** [X.copy()] *)
Definition copy (X : pyobj) : M nat :=
  let! t := frame_of X in alloc t.

(* ------------------------------------------------------------------ *)
(** ** Numeric Series operations (skipna) *)

(** The non-null numbers of a Series; comparing strings or dates with
    numbers raises [TypeError]. *)
Fixpoint nums (vs : list value) : res (list Q) :=
  match vs with
  | [] => Ok []
  | VNull :: vs' => nums vs'
  | VNum q :: vs' => let? qs := nums vs' in Ok (q :: qs)
  | _ :: _ => Err (TypeError "'<' not supported between instances")
  end.

Fixpoint insert_sorted (x : Q) (xs : list Q) : list Q :=
  match xs with
  | [] => [x]
  | y :: ys => if Qle_bool x y then x :: xs else y :: insert_sorted x ys
  end.

Definition sort (xs : list Q) : list Q := fold_right insert_sorted [] xs.

Definition nthQ (xs : list Q) (i : nat) : Q := nth i xs 0%Q.

(** [Series.quantile(p)], linear interpolation; [None] is NaN. *)
Definition quantile (p : Q) (xs : list Q) : option Q :=
  match xs with
  | [] => None
  | _ =>
    let s := sort xs in
    let hq := (inject_Z (Z.of_nat (length xs - 1)) * p)%Q in
    let lo := Z.to_nat (Qfloor hq) in
    let hi := Z.to_nat (Qceiling hq) in
    Some (nthQ s lo + (hq - inject_Z (Z.of_nat lo)) * (nthQ s hi - nthQ s lo))%Q
  end.

Definition sumQ (xs : list Q) : Q := fold_right Qplus 0%Q xs.

(** [Series.mean()] *)
Definition mean (xs : list Q) : option Q :=
  match xs with
  | [] => None
  | _ => Some (sumQ xs / inject_Z (Z.of_nat (length xs)))%Q
  end.

(** The square of [Series.std()] (ddof = 1); NaN below two values. *)
Definition var (xs : list Q) : option Q :=
  match mean xs with
  | Some m =>
    if (length xs <? 2)%nat then None
    else Some (sumQ (map (fun x => (x - m) * (x - m)) xs)
               / inject_Z (Z.of_nat (length xs - 1)))%Q
  | None => None
  end.

Fixpoint minQ (xs : list Q) : option Q :=
  match xs with
  | [] => None
  | x :: xs' => match minQ xs' with
                | Some m => Some (if Qle_bool x m then x else m)
                | None => Some x
                end
  end.

Fixpoint maxQ (xs : list Q) : option Q :=
  match xs with
  | [] => None
  | x :: xs' => match maxQ xs' with
                | Some m => Some (if Qle_bool m x then x else m)
                | None => Some x
                end
  end.

(** [Series.clip(lower, upper)]: a NaN threshold is no bound. *)
Definition clip_value (lo hi : option Q) (v : value) : res value :=
  match v with
  | VNull => Ok VNull
  | VNum q =>
    let q1 := match lo with Some l => if negb (Qle_bool l q) then l else q | None => q end in
    let q2 := match hi with Some u => if negb (Qle_bool q1 u) then u else q1 | None => q1 end in
    Ok (VNum q2)
  | _ => Err (TypeError "'>=' not supported between instances")
  end.

Definition clip (col : column) (lo hi : option Q) : res column :=
  let? vs := forR (cells col) (clip_value lo hi) in Ok (mkcol (ctype col) vs).

(** [Series.max()] (skipna): numbers or strings; NaN when no value. *)
Definition py_max (vs : list value) : res value :=
  let present := List.filter (fun v => match v with VNull => false | _ => true end) vs in
  match nums present with
  | Ok qs => Ok (match maxQ qs with Some m => VNum m | None => VNull end)
  | Err e =>
    let? ss := forR present (fun v => match v with
                                       | VStr s => Ok s
                                       | _ => Err (TypeError "'>=' not supported between instances")
                                       end) in
    match ss with
    | [] => Ok VNull
    | s0 :: ss' => Ok (VStr (fold_left (fun m s => if String.ltb m s then s else m) ss' s0))
    end
  end.

(** Value equality as [Series.nunique] sees it (numerically for numbers). *)
Definition value_eqb (v w : value) : bool :=
  match v, w with
  | VNull, VNull => true
  | VNum p, VNum q => Qeq_bool p q
  | VStr s, VStr s' => String.eqb s s'
  | VDate d, VDate d' =>
    Z.eqb (dyear d) (dyear d') && Z.eqb (dmonth d) (dmonth d') && Z.eqb (dday d) (dday d')
  | _, _ => false
  end.

(** [Series.nunique()]: distinct non-null values. *)
Definition nunique (vs : list value) : nat :=
  length (fold_left (fun seen v =>
            match v with
            | VNull => seen
            | _ => if existsb (value_eqb v) seen then seen else v :: seen
            end) vs []).

(* ------------------------------------------------------------------ *)
(** ** Dates: [pd.to_datetime] and the [.dt] accessors *)

Open Scope Z_scope.

Definition is_leap (y : Z) : bool :=
  (Z.eqb (y mod 4) 0 && negb (Z.eqb (y mod 100) 0)) || Z.eqb (y mod 400) 0.

Definition days_in_month (y m : Z) : Z :=
  if Z.eqb m 2 then (if is_leap y then 29 else 28)
  else if existsb (Z.eqb m) [4; 6; 9; 11] then 30 else 31.

Definition valid_date (d : date) : bool :=
  (1 <=? dmonth d) && (dmonth d <=? 12) && (1 <=? dday d)
  && (dday d <=? days_in_month (dyear d) (dmonth d)).

(** Days since 1970-01-01 of a proleptic Gregorian date. *)
Definition days_from_civil (y m d : Z) : Z :=
  let y' := if m <=? 2 then y - 1 else y in
  let era := y' / 400 in
  let yoe := y' - era * 400 in
  let mp := (m + 9) mod 12 in
  let doy := (153 * mp + 2) / 5 + d - 1 in
  let doe := yoe * 365 + yoe / 4 - yoe / 100 + doy in
  era * 146097 + doe - 719468.

Definition dt_year (d : date) : Z := dyear d.
Definition dt_month (d : date) : Z := dmonth d.
Definition dt_day (d : date) : Z := dday d.
(** Monday = 0 (1970-01-01 was a Thursday). *)
Definition dt_dayofweek (d : date) : Z :=
  (days_from_civil (dyear d) (dmonth d) (dday d) + 3) mod 7.
Definition dt_dayofyear (d : date) : Z :=
  days_from_civil (dyear d) (dmonth d) (dday d) - days_from_civil (dyear d) 1 1 + 1.

Definition iso_weeks_in_year (y : Z) : Z :=
  let jan1 := (days_from_civil y 1 1 + 3) mod 7 in
  if Z.eqb jan1 3 || (is_leap y && Z.eqb jan1 2) then 53 else 52.

(** [dt.isocalendar().week] *)
Definition dt_isoweek (d : date) : Z :=
  let w := (dt_dayofyear d - (dt_dayofweek d + 1) + 10) / 7 in
  if w <? 1 then iso_weeks_in_year (dyear d - 1)
  else if iso_weeks_in_year (dyear d) <? w then 1 else w.

Definition digit (a : Ascii.ascii) : option Z :=
  let n := Ascii.nat_of_ascii a in
  if (48 <=? n)%nat && (n <=? 57)%nat then Some (Z.of_nat (n - 48)) else None.

Fixpoint digits (l : list Ascii.ascii) (acc : Z) : option Z :=
  match l with
  | [] => Some acc
  | a :: l' => match digit a with Some k => digits l' (acc * 10 + k) | None => None end
  end.

(** [pd.to_datetime] on an ISO ["YYYY-MM-DD"] string. *)
Definition parse_iso (s : string) : option date :=
  match String.list_ascii_of_string s with
  | [y1; y2; y3; y4; s1; m1; m2; s2; d1; d2] =>
    if Ascii.eqb s1 "-"%char && Ascii.eqb s2 "-"%char then
      match digits [y1; y2; y3; y4] 0, digits [m1; m2] 0, digits [d1; d2] 0 with
      | Some y, Some m, Some d =>
        let dt := mkdate y m d in if valid_date dt then Some dt else None
      | _, _, _ => None
      end
    else None
  | _ => None
  end.

(** [pd.to_datetime(series)]: nulls become NaT.  Numeric cells (epoch
    offsets in pandas) are not modelled and are rejected like unparseable
    strings. *)
Definition to_datetime (col : column) : res column :=
  let? vs := forR (cells col) (fun v =>
               match v with
               | VNull => Ok VNull
               | VDate d => Ok (VDate d)
               | VStr s => match parse_iso s with
                           | Some d => Ok (VDate d)
                           | None => Err (ValueError ("Unknown datetime string format: " ++ s))
                           end
               | VNum _ => Err (ValueError "to_datetime of numbers is not modelled")
               end) in
  Ok (mkcol TDatetime vs).

(** A [.dt] field accessor: NaT gives NaN. *)
Definition dt_field (f : date -> Z) (col : column) : column :=
  mkcol TNum (map (fun v => match v with VDate d => VNum (inject_Z (f d)) | _ => VNull end)
                  (cells col)).

(** Python's [xs[:k]]. *)
Definition py_slice_upto {A} (xs : list A) (k : Z) : list A :=
  if 0 <=? k then firstn (Z.to_nat k) xs
  else firstn (Z.to_nat (Z.of_nat (length xs) + k)) xs.

(* ------------------------------------------------------------------ *)
(** ** [CalendarExtractor] *)

Module CalendarExtractor.

Record t := { date_col : string; calendar_level : option Z }.

Definition init (date_col : string) (calendar_level : option Z) : t :=
  {| date_col := date_col; calendar_level := calendar_level |}.

Definition fit (self : t) (X : pyobj) : M t := retM self.

Definition all_fields : list string :=
  ["year"; "month"; "day"; "dayofweek"; "dayofyear"; "weekofyear"].

(** One pass of the [for what in what_to_generate] loop: the Series it
    appends to [cols_to_add], if any. *)
Definition generate (dcol : column) (what : string) : res (option (string * column)) :=
  if String.eqb what "year" then Ok (Some ("year", dt_field dt_year dcol))
  else if String.eqb what "month" then Ok (Some ("month", dt_field dt_month dcol))
  else if String.eqb what "day" then Ok (Some ("day", dt_field dt_day dcol))
  else if String.eqb what "dayofweek" then Ok (Some ("dayofweek", dt_field dt_dayofweek dcol))
  else if String.eqb what "dayofyear" then Ok (Some ("dayofyear", dt_field dt_dayofyear dcol))
  else if String.eqb what "weekofyear" then
    (* weekofyear_col is computed and named, but not appended *)
    let weekofyear_col := ("weekofyear", dt_field dt_isoweek dcol) in Ok None
  else Err (ValueError ("Unknown parameter " ++ what ++ " in what_to_generate")).

Fixpoint somes {A} (xs : list (option A)) : list A :=
  match xs with
  | [] => []
  | Some x :: xs' => x :: somes xs'
  | None :: xs' => somes xs'
  end.

Definition transform (self : t) (X : pyobj) : M nat :=
  let! _ := check_transform X false "" false in
  let! l := copy X in
  let! T_ := load l in
  let! dcol := liftR (getitem T_ (date_col self)) in
  let! dcol' := liftR (to_datetime dcol) in
  let! _ := store l (setitem T_ (date_col self) dcol') in
  let what_to_generate :=
    match calendar_level self with
    | Some k => py_slice_upto all_fields k
    | None => all_fields
    end in
  let! T_ := load l in
  let! dcol := liftR (getitem T_ (date_col self)) in
  let! gen := liftR (forR what_to_generate (generate dcol)) in
  let cols_to_add := somes gen in
  let! T_ := load l in
  let! T_' := liftR (drop T_ [date_col self]) in
  let! _ := store l T_' in
  let! T_ := load l in
  alloc (T_ ++ cols_to_add).

End CalendarExtractor.

(** Python [d[k]] on a dict kept as an association list. *)
Definition dict_get {V} (d : list (string * V)) (k : string) : res V :=
  match find (fun p => String.eqb (fst p) k) d with
  | Some (_, v) => Ok v
  | None => Err (KeyError k)
  end.

(* ------------------------------------------------------------------ *)
(** ** [NoInfoFeatureRemover] *)

Module NoInfoFeatureRemover.

Record t := { cols_to_remove : option (list string);
              cols_to_except : list string;
              verbose : bool }.

Definition init (cols_to_except : option (list string)) (verbose : bool) : t :=
  {| cols_to_remove := None;
     cols_to_except := match cols_to_except with Some cs => cs | None => [] end;
     verbose := verbose |}.

(** The printed message has no functional effect and is not modelled. *)
Definition fit (self : t) (X : pyobj) : M t :=
  let! _ := check_fill X in
  let! T := frame_of X in
  let rm := List.filter (fun p => Nat.leb (nunique (cells (snd p))) 1
                                  && negb (mem (fst p) (cols_to_except self))) T in
  retM {| cols_to_remove := Some (map fst rm);
          cols_to_except := cols_to_except self; verbose := verbose self |}.

Definition transform (self : t) (X : pyobj) : M nat :=
  let! _ := check_transform X (truthy_list (cols_to_remove self)) "NoInfoFeatureRemover" true in
  let! T := frame_of X in
  let rm := match cols_to_remove self with Some cs => cs | None => [] end in
  let! X_ := liftR (drop T rm) in
  alloc X_.

End NoInfoFeatureRemover.

(* ------------------------------------------------------------------ *)
(** ** [OutlierRemover] *)

(** [left_bound <= x <= right_bound] for a pair of bounds; NaN bounds
    ([None]) admit nothing. *)
Definition in_interval (b : option (Q * Q)) (x : Q) : bool :=
  match b with
  | Some (lb, rb) => Qle_bool lb x && Qle_bool x rb
  | None => false
  end.

Definition iqr_bounds (xs : list Q) : option (Q * Q) :=
  match quantile (1 # 4) xs, quantile (3 # 4) xs with
  | Some q1, Some q3 =>
    let iqr := (q3 - q1)%Q in Some ((q1 - (3 # 2) * iqr)%Q, (q3 + (3 # 2) * iqr)%Q)
  | _, _ => None
  end.

Definition quantile_bounds (xs : list Q) : option (Q * Q) :=
  match quantile (1 # 100) xs, quantile (99 # 100) xs with
  | Some lb, Some rb => Some (lb, rb)
  | _, _ => None
  end.

Definition skip_bounds (xs : list Q) : option (Q * Q) :=
  match minQ xs, maxQ xs with
  | Some lb, Some rb => Some (lb, rb)
  | _, _ => None
  end.

(** [mean - 3 * std <= x <= mean + 3 * std], decided exactly on squares. *)
Definition std_in_bounds (xs : list Q) (x : Q) : bool :=
  match mean xs, var xs with
  | Some m, Some v =>
    (Qle_bool (m - x) 0 || Qle_bool ((m - x) * (m - x)) (9 * v))
    && (Qle_bool (x - m) 0 || Qle_bool ((x - m) * (x - m)) (9 * v))
  | _, _ => false
  end%Q.

Module OutlierRemover.

Record t := { cols_to_transform : list string;
              method : string;
              col_thresholds : option (list (string * (option Q * option Q))) }.

Definition init (cols_to_transform : option (list string)) (method : string) : res t :=
  match cols_to_transform with
  | None => Err (ValueError "cols_to_transform parameter is should be filled")
  | Some cs => Ok {| cols_to_transform := cs; method := method; col_thresholds := None |}
  end.

(** The if/elif chain on [self.method]: the in-bounds test of a column. *)
Definition bounds_test (method : string) : res (list Q -> Q -> bool) :=
  if String.eqb method "iqr" then Ok (fun xs => in_interval (iqr_bounds xs))
  else if String.eqb method "std" then Ok std_in_bounds
  else if String.eqb method "quantile" then Ok (fun xs => in_interval (quantile_bounds xs))
  else if String.eqb method "skip" then Ok (fun xs => in_interval (skip_bounds xs))
  else Err (ValueError ("unknown method " ++ method ++ " for outlier remover")).

(** [s = X[col][(X[col] >= left_bound) & (X[col] <= right_bound)]] and
    [(s.min(), s.max())]. *)
Definition threshold (method : string) (T : table) (c : string)
    : res (string * (option Q * option Q)) :=
  let? test := bounds_test method in
  let? col := getitem T c in
  let? xs := nums (cells col) in
  let s := List.filter (test xs) xs in
  Ok (c, (minQ s, maxQ s)).

Definition fit (self : t) (X : pyobj) : M t :=
  let! _ := check_fill X in
  let! T := frame_of X in
  let cols := List.filter (fun c => mem c (columns T)) (cols_to_transform self) in
  let! th := liftR (forR cols (threshold (method self) T)) in
  retM {| cols_to_transform := cols; method := method self; col_thresholds := Some th |}.

(** One pass of the loop: [X_[col] = X_[col].clip] to [self.col_thresholds[col]]. *)
Definition clip_column (th : list (string * (option Q * option Q))) (l : nat) (c : string)
    : M unit :=
  let! X_ := load l in
  let! col := liftR (getitem X_ c) in
  let! b := liftR (dict_get th c) in
  let! col' := liftR (clip col (fst b) (snd b)) in
  store l (setitem X_ c col').

Definition transform (self : t) (X : pyobj) : M nat :=
  let! _ := check_transform X (truthy_list (col_thresholds self)) "OutlierRemover" true in
  let! l := copy X in
  let th := match col_thresholds self with Some d => d | None => [] end in
  let! _ := forM (cols_to_transform self) (clip_column th l) in
  retM l.

(** [TransformerMixin.fit_transform]: [self.fit(X).transform(X)]. *)
Definition fit_transform (self : t) (X : pyobj) : M nat :=
  let! s := fit self X in transform s X.

End OutlierRemover.

(* ------------------------------------------------------------------ *)
(** ** [WithAnotherColumnImputer] *)

Fixpoint fillna_cells (vs ws : list value) : list value :=
  match vs, ws with
  | VNull :: vs', w :: ws' => w :: fillna_cells vs' ws'
  | v :: vs', _ :: ws' => v :: fillna_cells vs' ws'
  | _, [] => vs
  | [], _ => []
  end.

(** [series.fillna(other)]: row-aligned fill from another Series. *)
Definition fillna (col other : column) : column :=
  mkcol (ctype col) (fillna_cells (cells col) (cells other)).

Module WithAnotherColumnImputer.

Record t := { cols_to_impute : list (string * string) }.

Definition init (cols_to_impute : option (list (string * string))) : res t :=
  match cols_to_impute with
  | None => Err (ValueError "cols_to_impute parameter is should be filled")
  | Some d => Ok {| cols_to_impute := d |}
  end.

Definition fit (self : t) (X : pyobj) : M t :=
  let! _ := check_fill X in
  let! T := frame_of X in
  retM {| cols_to_impute := List.filter (fun p => mem (fst p) (columns T)) (cols_to_impute self) |}.

Definition transform (self : t) (X : pyobj) : M nat :=
  let! _ := check_transform X (match cols_to_impute self with [] => false | _ => true end)
                            "WithAnotherColumnImputer" true in
  let! l := copy X in
  let! _ := forM (cols_to_impute self) (fun p =>
              let! X_ := load l in
              let! col := liftR (getitem X_ (fst p)) in
              let! other := liftR (getitem X_ (snd p)) in
              store l (setitem X_ (fst p) (fillna col other))) in
  retM l.

End WithAnotherColumnImputer.

(* ------------------------------------------------------------------ *)
(** ** [CatCaster] *)

Definition astype_category (p : string * column) : string * column :=
  (fst p, mkcol TCategory (cells (snd p))).

Module CatCaster.

Record t := { cols_to_cast : list string }.

Definition init (cols_to_cast : list string) : t := {| cols_to_cast := cols_to_cast |}.

Definition fit (self : t) (X : pyobj) : M t :=
  let! _ := check_fill X in
  let! T := frame_of X in
  retM {| cols_to_cast := List.filter (fun c => mem c (columns T)) (cols_to_cast self) |}.

Definition transform (self : t) (X : pyobj) : M nat :=
  let! _ := check_transform X false "" false in
  let! l := copy X in
  let! T := frame_of X in
  let! sub := liftR (getitems T (cols_to_cast self)) in
  let! X_ := load l in
  let! _ := store l (setitems X_ (cols_to_cast self) (map astype_category sub)) in
  retM l.

End CatCaster.

(* ------------------------------------------------------------------ *)
(** ** [FeaturesOrder] *)

Module FeaturesOrder.

Record t := { features_order : list string; features_order_ : option (list string) }.

Definition init (features_order : list string) : t :=
  {| features_order := features_order; features_order_ := None |}.

Definition fit (self : t) (X : pyobj) : M t :=
  let! _ := check_fill X in
  let! T := frame_of X in
  let fo := List.filter (fun c => mem c (columns T)) (features_order self) in
  let fo := fo ++ List.filter (fun c => negb (mem c fo)) (columns T) in
  retM {| features_order := features_order self; features_order_ := Some fo |}.

Definition transform (self : t) (X : pyobj) : M nat :=
  let! _ := check_transform X (truthy_list (features_order_ self)) "OrderFeatures" true in
  let! T := frame_of X in
  let fo := match features_order_ self with Some fo => fo | None => [] end in
  let! X_ := liftR (getitems T fo) in
  alloc X_.

End FeaturesOrder.

(* ------------------------------------------------------------------ *)
(** ** sklearn estimators (opaque) *)

Inductive estimator :=
| StandardScaler
| MinMaxScaler
| RobustScaler
| PowerTransformer
| SimpleImputer (strategy : string) (fill_value : option value).

(** A fitted estimator is known only through its [transform] method. *)
Definition fitted := table -> res table.

(* ------------------------------------------------------------------ *)
(** ** [ScalerPicker] *)

Module ScalerPicker.

(** [self.scaler]: ["skip"] or a fitted scaler, both truthy. *)
Inductive scaler_state := SkipScaler | FittedScaler (f : fitted).

Record t := { cols_to_scale : list string; scaler_type : string;
              scaler : option scaler_state }.

Definition init (cols_to_scale : list string) (scaler_type : string) : t :=
  {| cols_to_scale := cols_to_scale; scaler_type := scaler_type; scaler := None |}.

Definition get_scaler_class (scaler_type : string) : res (option estimator) :=
  if String.eqb scaler_type "standard" then Ok (Some StandardScaler)
  else if String.eqb scaler_type "minmax" then Ok (Some MinMaxScaler)
  else if String.eqb scaler_type "robust" then Ok (Some RobustScaler)
  else if String.eqb scaler_type "power" then Ok (Some PowerTransformer)
  else if String.eqb scaler_type "skip" then Ok None
  else Err (ValueError ("unknown scaler type " ++ scaler_type ++ " should be standard or minmax")).

Section Fit.
Variable sk_fit : estimator -> table -> res fitted.

Definition fit (self : t) (X : pyobj) : M t :=
  let! _ := check_fill X in
  let! T := frame_of X in
  let cols := List.filter (fun c => mem c (columns T)) (cols_to_scale self) in
  let! cls := liftR (get_scaler_class (scaler_type self)) in
  match cls with
  | Some e =>
    let! sub := liftR (getitems T cols) in
    let! _ := liftR (sk_fit e sub) in
    let! f := liftR (sk_fit e sub) in
    retM {| cols_to_scale := cols; scaler_type := scaler_type self; scaler := Some (FittedScaler f) |}
  | None =>
    retM {| cols_to_scale := cols; scaler_type := scaler_type self; scaler := Some SkipScaler |}
  end.
End Fit.

Definition transform (self : t) (X : pyobj) : M nat :=
  let! _ := check_transform X (match scaler self with Some _ => true | None => false end)
                            "CustomScaler" true in
  let! l := copy X in
  match scaler self with
  | Some (FittedScaler f) =>
    let! X_ := load l in
    let! sub := liftR (getitems X_ (cols_to_scale self)) in
    let! out := liftR (f sub) in
    let! _ := store l (setitems X_ (cols_to_scale self) out) in
    retM l
  | _ => retM l
  end.

End ScalerPicker.

(* ------------------------------------------------------------------ *)
(** ** [SimpleImputerPicker] *)

(** Modelled from the spec: [check_key_tuple_empty_intersection], which
    transformers.py imports from utils.py but utils.py does not define.
    The spec: the column-name tuples used as keys must be pairwise disjoint,
    fatal if any two keys share a column. *)
Fixpoint check_key_tuple_empty_intersection (keys : list (list string)) : res unit :=
  match keys with
  | [] => Ok tt
  | k :: ks =>
    if existsb (fun k' => existsb (fun c => mem c k') k) ks
    then Err (ValueError "keys of cols_to_impute must not share columns")
    else check_key_tuple_empty_intersection ks
  end.

Module SimpleImputerPicker.

(** [cols_to_impute]: a dict from column tuples to fill values, a list of
    column names, or [X.columns] (a pandas Index) once set by [fit]. *)
Inductive cols_cfg :=
| CDict (d : list (list string * value))
| CList (cs : list string)
| CIndex (cs : list string).

(** [self.imputer]: a dict of imputers per column tuple, one shared
    imputer, or a dict of imputers per column. *)
Inductive imputer_state :=
| IGroups (d : list (list string * fitted))
| IShared (f : fitted)
| IPerCol (d : list (string * fitted)).

Record t := { strategy : string; cols_to_impute : option cols_cfg;
              imputer : option imputer_state }.

Definition init (strategy : string) (cols_to_impute : option cols_cfg) : res t :=
  let? _ := match cols_to_impute with
            | Some (CDict d) => check_key_tuple_empty_intersection (map fst d)
            | _ => Ok tt
            end in
  Ok {| strategy := strategy; cols_to_impute := cols_to_impute; imputer := None |}.

(** [[col for col in self.cols_to_impute if col in X.columns]]: iterating a
    dict yields its tuple keys, which are never column labels. *)
Definition present_cols (cfg : cols_cfg) (T : table) : list string :=
  match cfg with
  | CDict _ => []
  | CList cs | CIndex cs => List.filter (fun c => mem c (columns T)) cs
  end.

Definition truthy_imputer (o : option imputer_state) : bool :=
  match o with
  | Some (IGroups (_ :: _)) | Some (IShared _) | Some (IPerCol (_ :: _)) => true
  | _ => false
  end.

Section Fit.
Variable sk_fit : estimator -> table -> res fitted.

Definition fit_group (T : table) (g : list string * value)
    : res (option (list string * fitted)) :=
  let cs := List.filter (fun c => mem c (columns T)) (fst g) in
  match cs with
  | [] => Ok None
  | _ => let? sub := getitems T cs in
         let? f := sk_fit (SimpleImputer "constant" (Some (snd g))) sub in
         Ok (Some (cs, f))
  end.

Definition fit_max (T : table) (c : string) : res (string * fitted) :=
  let? col := getitem T c in
  let? m := py_max (cells col) in
  let? sub := getitems T [c] in
  let? f := sk_fit (SimpleImputer "constant" (Some m)) sub in
  Ok (c, f).

Definition fit (self : t) (X : pyobj) : M t :=
  let! _ := check_fill X in
  let! T := frame_of X in
  if existsb (fun p => all_null (snd p)) T
  then throw (ValueError "there are columns with all missing values")
  else
  let cfg := match cols_to_impute self with Some c => c | None => CIndex (columns T) end in
  let mk imp := {| strategy := strategy self; cols_to_impute := Some cfg;
                   imputer := Some imp |} in
  if String.eqb (strategy self) "constant" then
    match cfg with
    | CDict d => let! gs := liftR (forR d (fit_group T)) in
                 retM (mk (IGroups (CalendarExtractor.somes gs)))
    | CList _ => throw (AttributeError "'list' object has no attribute 'items'")
    | CIndex _ => throw (AttributeError "'Index' object has no attribute 'items'")
    end
  else if existsb (String.eqb (strategy self)) ["mean"; "median"; "most_frequent"] then
    let! sub := liftR (getitems T (present_cols cfg T)) in
    let! f := liftR (sk_fit (SimpleImputer (strategy self) None) sub) in
    retM (mk (IShared f))
  else if String.eqb (strategy self) "max" then
    let! fs := liftR (forR (present_cols cfg T) (fit_max T)) in
    retM (mk (IPerCol fs))
  else throw (ValueError ("unknown strategy " ++ strategy self
                          ++ " should be constant, mean, median or most_frequent")).
End Fit.

(** [X_[cols] = imputer.transform(X_[cols])] on the frame at [l]. *)
Definition impute_into (l : nat) (cs : list string) (f : fitted) : M unit :=
  let! X_ := load l in
  let! sub := liftR (getitems X_ cs) in
  let! out := liftR (f sub) in
  store l (setitems X_ cs out).

Definition transform (self : t) (X : pyobj) : M nat :=
  let! _ := check_transform X (truthy_imputer (imputer self)) "ConstantImputer" true in
  let! l := copy X in
  if String.eqb (strategy self) "constant" then
    match imputer self with
    | Some (IGroups d) => let! _ := forM d (fun g => impute_into l (fst g) (snd g)) in retM l
    | _ => throw (AttributeError "object has no attribute 'items'")
    end
  else if String.eqb (strategy self) "max" then
    match imputer self with
    | Some (IPerCol d) => let! _ := forM d (fun g => impute_into l [fst g] (snd g)) in retM l
    | _ => throw (AttributeError "object has no attribute 'items'")
    end
  else
    match imputer self with
    | Some (IShared f) => let! X_ := load l in
                          let! out := liftR (f X_) in
                          alloc out
    | _ => throw (AttributeError "object has no attribute 'transform'")
    end.

End SimpleImputerPicker.

(* ------------------------------------------------------------------ *)
(** ** All transformers behind one interface *)

Close Scope Z_scope.

Inductive transformer :=
| TCalendarExtractor (s : CalendarExtractor.t)
| TNoInfoFeatureRemover (s : NoInfoFeatureRemover.t)
| TOutlierRemover (s : OutlierRemover.t)
| TWithAnotherColumnImputer (s : WithAnotherColumnImputer.t)
| TCatCaster (s : CatCaster.t)
| TFeaturesOrder (s : FeaturesOrder.t)
| TScalerPicker (s : ScalerPicker.t)
| TSimpleImputerPicker (s : SimpleImputerPicker.t).

Definition transform (tr : transformer) (X : pyobj) : M nat :=
  match tr with
  | TCalendarExtractor s => CalendarExtractor.transform s X
  | TNoInfoFeatureRemover s => NoInfoFeatureRemover.transform s X
  | TOutlierRemover s => OutlierRemover.transform s X
  | TWithAnotherColumnImputer s => WithAnotherColumnImputer.transform s X
  | TCatCaster s => CatCaster.transform s X
  | TFeaturesOrder s => FeaturesOrder.transform s X
  | TScalerPicker s => ScalerPicker.transform s X
  | TSimpleImputerPicker s => SimpleImputerPicker.transform s X
  end.

Definition is_not_fitted_error {A} (r : res A) : bool :=
  match r with Err (NotFittedError _) => true | _ => false end.

(* ------------------------------------------------------------------ *)
(** ** Reasoning tools *)

(** [keeps n P m]: run on a heap holding at least [n] frames, [m] leaves
    the first [n] frames untouched, only grows the heap, and returns a
    value satisfying [P] when it returns. *)
Definition keeps {A} (n : nat) (P : A -> Prop) (m : M A) : Prop :=
  forall h, n <= length h ->
    n <= length (snd (m h))
    /\ (forall i, i < n -> snd (m h) !! i = h !! i)
    /\ (forall a, fst (m h) = Ok a -> P a).

(** The configured columns present in a table. *)
Definition present (T : table) (cs : list string) : list string :=
  List.filter (fun c => mem c (columns T)) cs.

(** The pure meaning of OutlierRemover's clipping loop. *)
Fixpoint clip_all (th : list (string * (option Q * option Q))) (cs : list string)
    (T : table) : res table :=
  match cs with
  | [] => Ok T
  | c :: cs' =>
    let? col := getitem T c in
    let? b := dict_get th c in
    let? col' := clip col (fst b) (snd b) in
    clip_all th cs' (setitem T c col')
  end.

(** Two keys of the constant-imputer dict share a column. *)
Definition keys_overlap (ks : list (list string)) : Prop :=
  exists i j ki kj c, (i < j)%nat /\ ks !! i = Some ki /\ ks !! j = Some kj
                      /\ In c ki /\ In c kj.

(** Numeric Series built from Python ranges. *)
Definition num_col (zs : list Z) : column := mkcol TNum (map (fun z => VNum (inject_Z z)) zs).
Definition zrange (a b : Z) : list Z := map Z.of_nat (seq (Z.to_nat a) (Z.to_nat (b - a))).

(** The table of the calendar tests in [src/tests/test_transformers.py]. *)
Definition calendar_example : table :=
  [("date", mkcol TStr [VStr "2022-01-01"; VStr "2023-02-28"])].

(** The tables of the outlier tests in [src/tests/test_transformers.py]. *)
Definition skip_example : table :=
  [("col_1", num_col ([-1000] ++ zrange 0 100 ++ [1000])%Z)].

Definition iqr_example : table :=
  [("col_1", num_col ([-51] ++ zrange 1 100 ++ [151])%Z)].

Definition iqr_expected : table :=
  [("col_1", num_col ([1] ++ zrange 1 100 ++ [99])%Z)].

(* ------------------------------------------------------------------ *)
(** ** Tools and example frames for the further properties *)

(** [reads m]: [m] leaves the heap as it found it. *)
Definition reads {A} (m : M A) : Prop := forall h, snd (m h) = h.

(** The columns [NoInfoFeatureRemover] keeps: more than one distinct
    value, or listed in [cols_to_except]. *)
Definition informative (except : list string) (p : string * column) : bool :=
  negb (Nat.leb (nunique (cells (snd p))) 1) || mem (fst p) except.


(** Small frames for the witnesses of the further properties. *)
Definition extra_frame : table :=
  [("a", mkcol TNum [VNum 1%Q; VNull; VNum 5%Q]);
   ("b", mkcol TNum [VNum 2%Q; VNum 3%Q; VNum 4%Q]);
   ("k", mkcol TStr [VStr "x"; VStr "x"; VStr "x"])].

Definition max_example : table :=
  [("a", mkcol TNum [VNum 1%Q; VNull; VNum 5%Q]); ("b", mkcol TNum [VNum 2%Q; VNum 3%Q; VNum 4%Q])].

Definition calendar_frame : table :=
  [("id", mkcol TNum [VNum 1%Q; VNum 2%Q]); ("date", mkcol TStr [VStr "2022-01-01"; VStr "2023-02-28"])].

(** A stand-in fitted transformer that negates every number. *)
Definition negate_numbers (t : table) : res table :=
  Ok (map (fun p => (fst p, mkcol (ctype (snd p))
                              (map (fun v => match v with VNum q => VNum (- q)%Q | _ => v end)
                                   (cells (snd p))))) t).

(* ================================================================== *)
(** * Proofs *)

(** ** Heap frames below a bound are never written *)

Section Keeps.

Lemma keeps_ret {A} n (P : A -> Prop) (a : A) : P a -> keeps n P (retM a).
Proof. intros HP h Hn; cbn; repeat split; auto. intros a' [= <-]; exact HP. Qed.

Lemma keeps_throw {A} n (P : A -> Prop) e : keeps n P (throw e).
Proof. intros h Hn; cbn; repeat split; auto. discriminate. Qed.

Lemma keeps_bind {A B} n (P : A -> Prop) (Q : B -> Prop) m k :
  keeps n P m -> (forall a, P a -> keeps n Q (k a)) -> keeps n Q (bindM m k).
Proof.
  intros Hm Hk h Hn. destruct (Hm h Hn) as (H1 & H2 & H3). unfold bindM.
  destruct (m h) as [[a|e] h'] eqn:E; cbn in *.
  - destruct (Hk a (H3 a eq_refl) h' H1) as (G1 & G2 & G3).
    split; [exact G1|]. split; [|exact G3].
    intros i Hi. rewrite G2 by exact Hi. apply H2, Hi.
  - split; [exact H1|]. split; [exact H2|discriminate].
Qed.

Lemma keeps_weaken {A} n (P Q : A -> Prop) m :
  keeps n P m -> (forall a, P a -> Q a) -> keeps n Q m.
Proof.
  intros Hm HPQ h Hn. destruct (Hm h Hn) as (H1 & H2 & H3).
  split; [exact H1|]. split; [exact H2|]. intros a Ha. apply HPQ, H3, Ha.
Qed.

Lemma keeps_liftR {A} n (r : res A) : keeps n (fun _ => True) (liftR r).
Proof. destruct r; [apply keeps_ret; exact I | apply keeps_throw]. Qed.

Lemma keeps_load n l : keeps n (fun _ => True) (load l).
Proof.
  intros h Hn; unfold load; case_match; cbn; (split; [exact Hn|]); (split; [auto|]);
    intros; exact I.
Qed.

Lemma keeps_alloc n t : keeps n (le n) (alloc t).
Proof.
  intros h Hn; cbn. rewrite length_app; cbn. split; [lia|]. split.
  - intros i Hi. apply lookup_app_l. lia.
  - intros a [= <-]. exact Hn.
Qed.

Lemma keeps_store n l t : n <= l -> keeps n (fun _ => True) (store l t).
Proof.
  intros Hl h Hn; unfold store; cbn [fst snd]. rewrite length_insert. split; [exact Hn|]. split; [|auto].
  intros i Hi. apply list_lookup_insert_ne. lia.
Qed.

Lemma keeps_check_fill n X : keeps n (fun _ => True) (check_fill X).
Proof. destruct X; [apply keeps_ret; exact I | apply keeps_throw]. Qed.

Lemma keeps_frame_of n X : keeps n (fun _ => True) (frame_of X).
Proof. destruct X; [apply keeps_load | apply keeps_throw]. Qed.

Lemma keeps_check_transform n X b name c :
  keeps n (fun _ => True) (check_transform X b name c).
Proof.
  unfold check_transform. eapply keeps_bind; [apply keeps_check_fill|].
  intros _ _. destruct (c && negb b); [apply keeps_throw | apply keeps_ret; exact I].
Qed.

Lemma keeps_copy n X : keeps n (le n) (copy X).
Proof.
  unfold copy. eapply keeps_bind; [apply keeps_frame_of|]. intros t _. apply keeps_alloc.
Qed.

Lemma keeps_forM {A} n (xs : list A) body :
  (forall x, keeps n (fun _ => True) (body x)) -> keeps n (fun _ => True) (forM xs body).
Proof.
  intros Hb. induction xs as [|x xs IH]; cbn.
  - apply keeps_ret; exact I.
  - eapply keeps_bind; [apply Hb|]. intros _ _. exact IH.
Qed.

End Keeps.

Ltac keeps_step :=
  match goal with
  | |- forall _, _ => intro
  | |- keeps _ _ (bindM (copy _) _) => eapply keeps_bind; [apply keeps_copy|]
  | |- keeps _ _ (bindM (alloc _) _) => eapply keeps_bind; [apply keeps_alloc|]
  | |- keeps _ _ (bindM (store _ _) _) => eapply keeps_bind; [apply keeps_store; assumption|]
  | |- keeps _ _ (bindM (forM _ _) _) => eapply keeps_bind; [apply keeps_forM|]
  | |- keeps _ _ (bindM _ _) =>
      eapply keeps_bind;
      [first [ apply keeps_liftR | apply keeps_load | apply keeps_check_fill
             | apply keeps_frame_of | apply keeps_check_transform ] |]
  | |- keeps _ _ (retM _) => apply keeps_ret; exact I
  | |- keeps _ _ (throw _) => apply keeps_throw
  | |- keeps _ _ (alloc _) => eapply keeps_weaken; [apply keeps_alloc | intros; exact I]
  | |- keeps _ _ (store _ _) => apply keeps_store; assumption
  | |- keeps _ _ (let _ := _ in _) => cbv zeta
  | |- keeps _ _ (SimpleImputerPicker.impute_into _ _ _) =>
      unfold SimpleImputerPicker.impute_into
  | |- keeps _ _ (OutlierRemover.clip_column _ _ _) =>
      unfold OutlierRemover.clip_column
  | |- keeps _ _ _ => case_match
  end.

Ltac keeps_solve := repeat keeps_step.

Lemma keeps_transform n tr X : keeps n (fun _ => True) (transform tr X).
Proof.
  destruct tr as [s|s|s|s|s|s|s|s]; cbn [transform].
  - unfold CalendarExtractor.transform. keeps_solve.
  - unfold NoInfoFeatureRemover.transform. keeps_solve.
  - unfold OutlierRemover.transform. keeps_solve.
  - unfold WithAnotherColumnImputer.transform. keeps_solve.
  - unfold CatCaster.transform. keeps_solve.
  - unfold FeaturesOrder.transform. keeps_solve.
  - unfold ScalerPicker.transform. keeps_solve.
  - unfold SimpleImputerPicker.transform. keeps_solve.
Qed.

(** A library stand-in used to run the code on concrete inputs: every
    estimator fits and transforms as the identity. *)
Definition sk_identity (e : estimator) (t : table) : res fitted := Ok (fun x => Ok x).

(** ** C8 *)

(** C8: [transform] never mutates its input: after the call (whether it
    returns or raises) the input frame, and every other frame that existed
    before, holds the same columns, order and values. *)
Theorem transform_does_not_mutate_input :
  forall (tr : transformer) (l : nat) (h : heap),
    l < length h -> snd (transform tr (OFrame l) h) !! l = h !! l.
Proof.
  intros tr l h Hl.
  destruct (keeps_transform (length h) tr (OFrame l) h (le_n _)) as (_ & Hkeep & _).
  apply Hkeep, Hl.
Qed.

Lemma transform_does_not_mutate_input_witness :
  0 < length [[("a", mkcol TNum [VNull; VNum 3%Q])]]
  /\ snd (transform (TWithAnotherColumnImputer {| WithAnotherColumnImputer.cols_to_impute := [("a", "a")] |})
                    (OFrame 0) [[("a", mkcol TNum [VNull; VNum 3%Q])]]) !! 0
     = [[("a", mkcol TNum [VNull; VNum 3%Q])]] !! 0.
Proof.
  split; [cbn; lia|].
  apply transform_does_not_mutate_input. cbn; lia.
Defined.

(** ** C1 *)



(** ** C5 *)

(** C5 (as amended): the OutlierRemover constructor raises only for
    [cols_to_transform=None]; every list, the empty one included, is kept. *)
Theorem outlier_remover_init_rejects_only_none :
  forall method,
    OutlierRemover.init None method
      = Err (ValueError "cols_to_transform parameter is should be filled")
    /\ forall cs, exists o, OutlierRemover.init (Some cs) method = Ok o
                            /\ OutlierRemover.cols_to_transform o = cs.
Proof. intros m. split; [reflexivity|]. intros cs. eexists; split; reflexivity. Qed.

(** C5 fails: an empty column list is accepted. *)
Lemma outlier_remover_accepts_empty_list :
  OutlierRemover.init (Some []) "iqr"
  = Ok {| OutlierRemover.cols_to_transform := []; OutlierRemover.method := "iqr";
          OutlierRemover.col_thresholds := None |}.
Proof. reflexivity. Qed.

(** ** C4 *)

(** C4 (as amended): [SimpleImputerPicker.fit] raises the validation
    error as soon as any column of the table is entirely null, whether or
    not it is among [cols_to_impute], before looking at the configuration. *)
Theorem simple_imputer_fit_rejects_any_all_null_column :
  forall sk_fit (self : SimpleImputerPicker.t) (l : nat) (h : heap) (T : table),
    h !! l = Some T ->
    existsb (fun p => all_null (snd p)) T = true ->
    SimpleImputerPicker.fit sk_fit self (OFrame l) h
    = (Err (ValueError "there are columns with all missing values"), h).
Proof.
  intros sk self l h T HT Hnull.
  unfold SimpleImputerPicker.fit, bindM, check_fill, frame_of, load, retM.
  rewrite HT. cbn. rewrite Hnull. reflexivity.
Qed.

Lemma simple_imputer_fit_rejects_any_all_null_column_witness :
  let T := [("a", mkcol TNum [VNum 1%Q]); ("b", mkcol TNum [VNull])] in
  [T] !! 0 = Some T /\ existsb (fun p => all_null (snd p)) T = true
  /\ SimpleImputerPicker.fit sk_identity
       {| SimpleImputerPicker.strategy := "mean";
          SimpleImputerPicker.cols_to_impute := Some (SimpleImputerPicker.CList ["a"]);
          SimpleImputerPicker.imputer := None |} (OFrame 0) [T]
     = (Err (ValueError "there are columns with all missing values"), [T]).
Proof.
  intros T. split; [reflexivity|]. split; [reflexivity|].
  apply (simple_imputer_fit_rejects_any_all_null_column sk_identity _ 0 [T] T); reflexivity.
Defined.

(** C4 fails: the only entirely-null column [b] is not a target column,
    yet [fit] raises. *)
Lemma simple_imputer_rejects_non_target_null_column :
  match SimpleImputerPicker.init "mean" (Some (SimpleImputerPicker.CList ["a"])) with
  | Ok o => fst (SimpleImputerPicker.fit sk_identity o (OFrame 0)
                   [[("a", mkcol TNum [VNum 1%Q; VNull]); ("b", mkcol TNum [VNull; VNull])]])
            = Err (ValueError "there are columns with all missing values")
  | Err _ => False
  end.
Proof. vm_compute. reflexivity. Qed.

(** ** C9 *)

Lemma filter_none_removed (except : list string) (T : table) :
  Forall (fun p => mem (fst p) except = true \/ (2 <= nunique (cells (snd p)))%nat) T ->
  List.filter (fun p => Nat.leb (nunique (cells (snd p))) 1 && negb (mem (fst p) except)) T = [].
Proof.
  induction 1 as [|p T Hp _ IH]; [reflexivity|]. cbn [List.filter]. rewrite IH.
  destruct Hp as [Hm|Hn].
  - rewrite Hm, andb_false_r. reflexivity.
  - replace (Nat.leb (nunique (cells (snd p))) 1) with false; [reflexivity|].
    symmetry. apply Nat.leb_gt. lia.
Qed.

(** C9: after [fit] on a table where every non-exempted column has two or
    more distinct values, the learned removal list is empty, and
    [transform] then raises Not-Fitted on any frame: a fitted-but-empty
    state reads as unfitted. *)
Theorem no_info_fitted_empty_state_is_not_fitted :
  forall (cfg : option (list string)) (verbose : bool) (l : nat) (h : heap) (T : table),
    h !! l = Some T ->
    Forall (fun p => mem (fst p) (NoInfoFeatureRemover.cols_to_except
                                    (NoInfoFeatureRemover.init cfg verbose)) = true
                     \/ (2 <= nunique (cells (snd p)))%nat) T ->
    exists o,
      NoInfoFeatureRemover.fit (NoInfoFeatureRemover.init cfg verbose) (OFrame l) h = (Ok o, h)
      /\ NoInfoFeatureRemover.cols_to_remove o = Some []
      /\ forall (l2 : nat) (h2 : heap),
           NoInfoFeatureRemover.transform o (OFrame l2) h2
           = (Err (NotFittedError "NoInfoFeatureRemover transformer was not fitted"), h2).
Proof.
  intros cfg verbose l h T HT Hall.
  pose proof (filter_none_removed _ _ Hall) as Hf.
  eexists. split.
  - unfold NoInfoFeatureRemover.fit, bindM, check_fill, frame_of, load, retM.
    rewrite HT. cbn [fst snd]. rewrite Hf. reflexivity.
  - split; [reflexivity|]. intros l2 h2. reflexivity.
Qed.

Lemma no_info_fitted_empty_state_is_not_fitted_witness :
  let T := [("col_1", mkcol TNum [VNum 1%Q; VNum 2%Q]); ("no_info_1", mkcol TNum [VNum 1%Q; VNum 1%Q])] in
  exists o,
    NoInfoFeatureRemover.fit (NoInfoFeatureRemover.init (Some ["no_info_1"]) false) (OFrame 0) [T]
    = (Ok o, [T])
    /\ NoInfoFeatureRemover.cols_to_remove o = Some []
    /\ forall (l2 : nat) (h2 : heap),
         NoInfoFeatureRemover.transform o (OFrame l2) h2
         = (Err (NotFittedError "NoInfoFeatureRemover transformer was not fitted"), h2).
Proof.
  intros T. apply (no_info_fitted_empty_state_is_not_fitted (Some ["no_info_1"]) false 0 [T] T).
  - reflexivity.
  - subst T. constructor; [right; vm_compute; lia|].
    constructor; [left; reflexivity|]. constructor.
Defined.

(** ** C3 *)

Lemma mem_In c cs : mem c cs = true <-> In c cs.
Proof.
  unfold mem. rewrite existsb_exists. split.
  - intros (c' & Hin & Heq). apply String.eqb_eq in Heq. subst. exact Hin.
  - intros Hin. exists c. split; [exact Hin | apply String.eqb_refl].
Qed.

Lemma keys_overlap_cons k ks :
  keys_overlap (k :: ks)
  <-> (exists k' c, In k' ks /\ In c k /\ In c k') \/ keys_overlap ks.
Proof.
  split.
  - intros (i & j & ki & kj & c & Hij & Hi & Hj & Hci & Hcj).
    destruct i as [|i]; destruct j as [|j]; try lia; cbn in Hi, Hj.
    + left. injection Hi as <-. exists kj, c.
      split; [apply list_elem_of_In; eapply list_elem_of_lookup_2; exact Hj|auto].
    + right. exists i, j, ki, kj, c. repeat split; auto. lia.
  - intros [(k' & c & Hk' & Hc & Hc')|(i & j & ki & kj & c & Hij & Hi & Hj & Hci & Hcj)].
    + apply list_elem_of_In, list_elem_of_lookup_1 in Hk' as [j Hj].
      exists 0, (S j), k, k', c. repeat split; auto. lia.
    + exists (S i), (S j), ki, kj, c. repeat split; auto. lia.
Qed.

Lemma check_key_tuple_ok_iff ks :
  check_key_tuple_empty_intersection ks = Ok tt <-> ~ keys_overlap ks.
Proof.
  induction ks as [|k ks IH]; cbn [check_key_tuple_empty_intersection].
  - split; [|reflexivity]. intros _ (i & j & ki & kj & c & _ & Hi & _). discriminate Hi.
  - rewrite keys_overlap_cons.
    destruct (existsb (fun k' => existsb (fun c => mem c k') k) ks) eqn:E.
    + split; [discriminate|]. intros Hn. exfalso. apply Hn. left.
      apply existsb_exists in E as (k' & Hk' & E). apply existsb_exists in E as (c & Hc & E).
      apply mem_In in E. exists k', c. auto.
    + rewrite IH. split.
      * intros Hn [(k' & c & Hk' & Hc & Hc')|Ho]; [|exact (Hn Ho)].
        assert (existsb (fun k' => existsb (fun c => mem c k') k) ks = true) as E'.
        { apply existsb_exists. exists k'. split; [exact Hk'|].
          apply existsb_exists. exists c. split; [exact Hc|]. apply mem_In, Hc'. }
        congruence.
      * intros Hn Ho. apply Hn. right. exact Ho.
Qed.

Lemma check_key_tuple_err ks e :
  check_key_tuple_empty_intersection ks = Err e
  -> keys_overlap ks /\ exists msg, e = ValueError msg.
Proof.
  induction ks as [|k ks IH]; cbn [check_key_tuple_empty_intersection]; [discriminate|].
  rewrite keys_overlap_cons.
  destruct (existsb (fun k' => existsb (fun c => mem c k') k) ks) eqn:E.
  - intros [= <-]. split; [|eexists; reflexivity]. left.
    apply existsb_exists in E as (k' & Hk' & E). apply existsb_exists in E as (c & Hc & E).
    apply mem_In in E. exists k', c. auto.
  - intros He. destruct (IH He) as [Ho Hm]. split; [right; exact Ho | exact Hm].
Qed.

(** C3 (against the spec-modelled check): with a dict of column tuples,
    the SimpleImputerPicker constructor raises a validation error exactly
    when two keys share a column, and succeeds exactly when the keys are
    pairwise disjoint. *)
Theorem simple_imputer_init_requires_disjoint_keys :
  forall (d : list (list string * value)),
    match SimpleImputerPicker.init "constant" (Some (SimpleImputerPicker.CDict d)) with
    | Ok _ => ~ keys_overlap (map fst d)
    | Err e => keys_overlap (map fst d) /\ exists msg, e = ValueError msg
    end.
Proof.
  intros d. unfold SimpleImputerPicker.init. cbn [bindR].
  destruct (check_key_tuple_empty_intersection (map fst d)) as [[]|e] eqn:E; cbn.
  - apply check_key_tuple_ok_iff, E.
  - apply check_key_tuple_err, E.
Qed.

Lemma simple_imputer_init_requires_disjoint_keys_witness :
  keys_overlap (map fst [(["a"; "b"], VNum 0%Q); (["b"], VNum 1%Q)])
  /\ ~ keys_overlap (map fst [(["a"], VNum 0%Q); (["b"], VNum 1%Q)]).
Proof.
  split.
  - exact (proj1 (simple_imputer_init_requires_disjoint_keys [(["a"; "b"], VNum 0%Q); (["b"], VNum 1%Q)])).
  - exact (simple_imputer_init_requires_disjoint_keys [(["a"], VNum 0%Q); (["b"], VNum 1%Q)]).
Defined.

(** ** C10 *)

Lemma forR_keys (m : string) (T : table) cs th :
  forR cs (OutlierRemover.threshold m T) = Ok th -> map fst th = cs.
Proof.
  revert th. induction cs as [|c cs IH]; cbn; intros th.
  - intros [= <-]. reflexivity.
  - unfold OutlierRemover.threshold at 1.
    destruct (OutlierRemover.bounds_test m); cbn; [|discriminate].
    destruct (getitem T c); cbn; [|discriminate].
    destruct (nums (cells a0)); cbn; [|discriminate].
    destruct (forR cs _) eqn:E; cbn; [|discriminate].
    intros [= <-]. cbn. f_equal. apply IH. reflexivity.
Qed.

Lemma outlier_fit_spec (o : OutlierRemover.t) l h T :
  h !! l = Some T ->
  snd (OutlierRemover.fit o (OFrame l) h) = h
  /\ forall o', fst (OutlierRemover.fit o (OFrame l) h) = Ok o' ->
     OutlierRemover.cols_to_transform o' = present T (OutlierRemover.cols_to_transform o)
     /\ OutlierRemover.method o' = OutlierRemover.method o
     /\ exists th, OutlierRemover.col_thresholds o' = Some th
                   /\ forR (present T (OutlierRemover.cols_to_transform o))
                           (OutlierRemover.threshold (OutlierRemover.method o) T) = Ok th
                   /\ map fst th = present T (OutlierRemover.cols_to_transform o).
Proof.
  intros HT. unfold OutlierRemover.fit, bindM, check_fill, frame_of, load, liftR, retM, throw.
  rewrite HT. cbn [fst snd].
  destruct (forR _ _) eqn:E; cbn; (split; [reflexivity|]); intros o' Ho'; [|discriminate].
  injection Ho' as <-. cbn. split; [reflexivity|]. split; [reflexivity|].
  eexists; split; [reflexivity|]. split; [reflexivity|]. eapply forR_keys, E.
Qed.

Lemma scaler_fit_spec sk (o : ScalerPicker.t) l h T :
  h !! l = Some T ->
  snd (ScalerPicker.fit sk o (OFrame l) h) = h
  /\ forall o', fst (ScalerPicker.fit sk o (OFrame l) h) = Ok o' ->
     ScalerPicker.cols_to_scale o' = present T (ScalerPicker.cols_to_scale o).
Proof.
  intros HT. unfold ScalerPicker.fit, bindM, check_fill, frame_of, load, liftR, retM, throw.
  rewrite HT. cbn [fst snd].
  destruct (ScalerPicker.get_scaler_class _) as [[e|]|err]; cbn [fst snd];
    [| split; [reflexivity|]; intros o' [= <-]; reflexivity
     | split; [reflexivity|]; discriminate].
  destruct (getitems _ _); cbn [fst snd]; [|split; [reflexivity|discriminate]].
  destruct (sk e a); cbn [fst snd]; [|split; [reflexivity|discriminate]].
  split; [reflexivity|]. intros o' [= <-]. reflexivity.
Qed.

Lemma catcaster_fit_spec (o : CatCaster.t) l h T :
  h !! l = Some T ->
  CatCaster.fit o (OFrame l) h
  = (Ok {| CatCaster.cols_to_cast := present T (CatCaster.cols_to_cast o) |}, h).
Proof. intros HT. unfold CatCaster.fit, bindM, check_fill, frame_of, load, retM. rewrite HT. reflexivity. Qed.

Lemma with_another_fit_spec (o : WithAnotherColumnImputer.t) l h T :
  h !! l = Some T ->
  WithAnotherColumnImputer.fit o (OFrame l) h
  = (Ok {| WithAnotherColumnImputer.cols_to_impute :=
             List.filter (fun p => mem (fst p) (columns T)) (WithAnotherColumnImputer.cols_to_impute o) |}, h).
Proof.
  intros HT. unfold WithAnotherColumnImputer.fit, bindM, check_fill, frame_of, load, retM.
  rewrite HT. reflexivity.
Qed.

Lemma In_present c T cs : In c (present T cs) <-> In c cs /\ In c (columns T).
Proof. unfold present. rewrite filter_In, mem_In. reflexivity. Qed.

Lemma In_map_fst_filter c (T : table) (d : list (string * string)) :
  In c (map fst (List.filter (fun p => mem (fst p) (columns T)) d))
  <-> In c (map fst d) /\ In c (columns T).
Proof.
  rewrite !in_map_iff. split.
  - intros (p & <- & Hp). apply filter_In in Hp as [Hp Hm]. apply mem_In in Hm.
    split; [exists p; auto | exact Hm].
  - intros [(p & <- & Hp) Hm]. exists p. split; [reflexivity|].
    apply filter_In. split; [exact Hp | apply mem_In, Hm].
Qed.

(** C10: [fit] of OutlierRemover, ScalerPicker, CatCaster and
    WithAnotherColumnImputer overwrites the configured columns with those
    present in the fitted table.  Fitted first on [T1] lacking a configured
    column [c], then re-fitted on [T2] holding [c], the instance learns
    nothing for [c]; a fresh instance fitted on [T2] does. *)
Theorem refit_forgets_columns_absent_from_first_fit :
  forall (c : string) (T1 T2 : table) (l1 l2 : nat) (h : heap),
    h !! l1 = Some T1 -> h !! l2 = Some T2 ->
    ~ In c (columns T1) -> In c (columns T2) ->
    (forall o o1 o2 o3 : OutlierRemover.t,
       In c (OutlierRemover.cols_to_transform o) ->
       fst (OutlierRemover.fit o (OFrame l1) h) = Ok o1 ->
       fst (OutlierRemover.fit o1 (OFrame l2) (snd (OutlierRemover.fit o (OFrame l1) h))) = Ok o2 ->
       fst (OutlierRemover.fit o (OFrame l2) h) = Ok o3 ->
       ~ In c (OutlierRemover.cols_to_transform o2)
       /\ (forall th, OutlierRemover.col_thresholds o2 = Some th -> ~ In c (map fst th))
       /\ In c (OutlierRemover.cols_to_transform o3)
       /\ (exists th, OutlierRemover.col_thresholds o3 = Some th /\ In c (map fst th)))
    /\ (forall sk (o o1 o2 o3 : ScalerPicker.t),
          In c (ScalerPicker.cols_to_scale o) ->
          fst (ScalerPicker.fit sk o (OFrame l1) h) = Ok o1 ->
          fst (ScalerPicker.fit sk o1 (OFrame l2) (snd (ScalerPicker.fit sk o (OFrame l1) h))) = Ok o2 ->
          fst (ScalerPicker.fit sk o (OFrame l2) h) = Ok o3 ->
          ~ In c (ScalerPicker.cols_to_scale o2) /\ In c (ScalerPicker.cols_to_scale o3))
    /\ (forall o : CatCaster.t,
          In c (CatCaster.cols_to_cast o) ->
          exists o1 o2 o3,
            CatCaster.fit o (OFrame l1) h = (Ok o1, h)
            /\ CatCaster.fit o1 (OFrame l2) h = (Ok o2, h)
            /\ CatCaster.fit o (OFrame l2) h = (Ok o3, h)
            /\ ~ In c (CatCaster.cols_to_cast o2) /\ In c (CatCaster.cols_to_cast o3))
    /\ (forall o : WithAnotherColumnImputer.t,
          In c (map fst (WithAnotherColumnImputer.cols_to_impute o)) ->
          exists o1 o2 o3,
            WithAnotherColumnImputer.fit o (OFrame l1) h = (Ok o1, h)
            /\ WithAnotherColumnImputer.fit o1 (OFrame l2) h = (Ok o2, h)
            /\ WithAnotherColumnImputer.fit o (OFrame l2) h = (Ok o3, h)
            /\ ~ In c (map fst (WithAnotherColumnImputer.cols_to_impute o2))
            /\ In c (map fst (WithAnotherColumnImputer.cols_to_impute o3))).
Proof.
  intros c T1 T2 l1 l2 h H1 H2 Hn1 Hin2. split; [|split; [|split]].
  - intros o o1 o2 o3 Hc F1 F2 F3.
    destruct (outlier_fit_spec o l1 h T1 H1) as [Hh1 Hs1].
    rewrite Hh1 in F2.
    destruct (Hs1 o1 F1) as [Hc1 _].
    destruct (outlier_fit_spec o1 l2 h T2 H2) as [_ Hs2].
    destruct (Hs2 o2 F2) as (Hc2 & _ & th2 & Hth2 & _ & Hk2).
    destruct (outlier_fit_spec o l2 h T2 H2) as [_ Hs3].
    destruct (Hs3 o3 F3) as (Hc3 & _ & th3 & Hth3 & _ & Hk3).
    assert (Hnot : ~ In c (present T2 (OutlierRemover.cols_to_transform o1))).
    { rewrite Hc1, !In_present. tauto. }
    split; [rewrite Hc2; exact Hnot|]. split.
    + intros th Hth. rewrite Hth2 in Hth. injection Hth as <-. rewrite Hk2. exact Hnot.
    + split; [rewrite Hc3, In_present; tauto|].
      exists th3. split; [exact Hth3|]. rewrite Hk3, In_present. tauto.
  - intros sk o o1 o2 o3 Hc F1 F2 F3.
    destruct (scaler_fit_spec sk o l1 h T1 H1) as [Hh1 Hs1]. rewrite Hh1 in F2.
    pose proof (Hs1 o1 F1) as Hc1.
    pose proof (proj2 (scaler_fit_spec sk o1 l2 h T2 H2) o2 F2) as Hc2.
    pose proof (proj2 (scaler_fit_spec sk o l2 h T2 H2) o3 F3) as Hc3.
    rewrite Hc2, Hc3, Hc1, !In_present. tauto.
  - intros o Hc. do 3 eexists.
    split; [apply catcaster_fit_spec, H1|]. split; [apply catcaster_fit_spec, H2|].
    split; [apply catcaster_fit_spec, H2|]. cbn [CatCaster.cols_to_cast].
    rewrite !In_present. tauto.
  - intros o Hc. do 3 eexists.
    split; [apply with_another_fit_spec, H1|]. split; [apply with_another_fit_spec, H2|].
    split; [apply with_another_fit_spec, H2|]. cbn [WithAnotherColumnImputer.cols_to_impute].
    rewrite !In_map_fst_filter. tauto.
Qed.

Lemma refit_forgets_columns_absent_from_first_fit_witness :
  let T1 := [("b", mkcol TNum [VNum 1%Q; VNum 2%Q])] in
  let T2 := [("a", mkcol TNum [VNum 5%Q; VNum 6%Q]); ("b", mkcol TNum [VNum 1%Q; VNum 2%Q])] in
  exists o1 o2 o3,
    CatCaster.fit (CatCaster.init ["a"; "b"]) (OFrame 0) [T1; T2] = (Ok o1, [T1; T2])
    /\ CatCaster.fit o1 (OFrame 1) [T1; T2] = (Ok o2, [T1; T2])
    /\ CatCaster.fit (CatCaster.init ["a"; "b"]) (OFrame 1) [T1; T2] = (Ok o3, [T1; T2])
    /\ ~ In "a" (CatCaster.cols_to_cast o2) /\ In "a" (CatCaster.cols_to_cast o3).
Proof.
  intros T1 T2.
  destruct (refit_forgets_columns_absent_from_first_fit "a" T1 T2 0 1 [T1; T2])
    as (_ & _ & Hcat & _).
  - reflexivity.
  - reflexivity.
  - cbn. intros [H|[]]. discriminate H.
  - cbn. left. reflexivity.
  - apply Hcat. cbn. left. reflexivity.
Defined.

(** ** OutlierRemover: the clipping loop and the learned thresholds *)

Lemma clip_column_step th l h T c col b col' :
  h !! l = Some T -> getitem T c = Ok col -> dict_get th c = Ok b ->
  clip col (fst b) (snd b) = Ok col' ->
  OutlierRemover.clip_column th l c h = (Ok tt, <[l := setitem T c col']> h).
Proof.
  intros HT H1 H2 H3. unfold OutlierRemover.clip_column, bindM, load, liftR, retM, store.
  rewrite HT, H1, H2, H3. reflexivity.
Qed.

Lemma clip_loop th cs : forall l h T T',
  h !! l = Some T -> clip_all th cs T = Ok T' ->
  forM cs (OutlierRemover.clip_column th l) h = (Ok tt, <[l := T']> h).
Proof.
  induction cs as [|c cs IH]; intros l h T T' HT Hc; cbn [clip_all] in Hc.
  - injection Hc as <-. cbn. rewrite list_insert_id by exact HT. reflexivity.
  - destruct (getitem T c) as [col|] eqn:E1; cbn in Hc; [|discriminate].
    destruct (dict_get th c) as [b|] eqn:E2; cbn in Hc; [|discriminate].
    destruct (clip col (fst b) (snd b)) as [col'|] eqn:E3; cbn in Hc; [|discriminate].
    cbn [forM]. unfold bindM at 1. rewrite (clip_column_step th l h T c col b col' HT E1 E2 E3).
    assert (Hl : l < length h) by (apply lookup_lt_Some in HT; exact HT).
    rewrite (IH l _ (setitem T c col') T').
    + rewrite list_insert_insert_eq. reflexivity.
    + apply list_lookup_insert_eq, Hl.
    + exact Hc.
Qed.

(** [transform] allocates the copy at the end of the heap and clips it. *)
Lemma outlier_transform_clips (o : OutlierRemover.t) th l h T T' :
  OutlierRemover.col_thresholds o = Some th -> th <> [] -> h !! l = Some T ->
  clip_all th (OutlierRemover.cols_to_transform o) T = Ok T' ->
  OutlierRemover.transform o (OFrame l) h = (Ok (length h), h ++ [T']).
Proof.
  intros Hth Hne HT Hc. destruct th as [|b th']; [congruence|].
  unfold OutlierRemover.transform. rewrite Hth.
  cbv beta iota zeta delta [bindM check_transform check_fill copy frame_of load alloc retM
                            truthy_list negb andb].
  rewrite HT. cbv beta iota zeta.
  rewrite (clip_loop _ _ (length h) (h ++ [T]) T T').
  - f_equal. rewrite <- (Nat.add_0_r (length h)) at 1.
    rewrite insert_app_r. reflexivity.
  - rewrite lookup_app_r by lia. rewrite Nat.sub_diag. reflexivity.
  - exact Hc.
Qed.

Lemma minQ_None xs : minQ xs = None -> xs = [].
Proof. destruct xs; cbn; [auto|]. destruct (minQ xs); discriminate. Qed.

Lemma maxQ_None xs : maxQ xs = None -> xs = [].
Proof. destruct xs; cbn; [auto|]. destruct (maxQ xs); discriminate. Qed.

Lemma minQ_spec xs m :
  minQ xs = Some m -> In m xs /\ forall x, In x xs -> (m <= x)%Q.
Proof.
  revert m. induction xs as [|y xs IH]; intros m; cbn; [discriminate|].
  destruct (minQ xs) as [m'|] eqn:E.
  - destruct (IH m' eq_refl) as [Hin Hle].
    destruct (Qle_bool y m') eqn:Hb; intros [= <-].
    + apply Qle_bool_iff in Hb. split; [left; reflexivity|].
      intros x [<-|Hx]; [apply Qle_refl | eapply Qle_trans; [exact Hb | apply Hle, Hx]].
    + split; [right; exact Hin|]. intros x [<-|Hx]; [|apply Hle, Hx].
      apply Qlt_le_weak, Qnot_le_lt. intros Hc. apply Qle_bool_iff in Hc. congruence.
  - apply minQ_None in E as ->. intros [= <-]. split; [left; reflexivity|].
    intros x [<-|[]]. apply Qle_refl.
Qed.

Lemma maxQ_spec xs m :
  maxQ xs = Some m -> In m xs /\ forall x, In x xs -> (x <= m)%Q.
Proof.
  revert m. induction xs as [|y xs IH]; intros m; cbn; [discriminate|].
  destruct (maxQ xs) as [m'|] eqn:E.
  - destruct (IH m' eq_refl) as [Hin Hle].
    destruct (Qle_bool m' y) eqn:Hb; intros [= <-].
    + apply Qle_bool_iff in Hb. split; [left; reflexivity|].
      intros x [<-|Hx]; [apply Qle_refl | eapply Qle_trans; [apply Hle, Hx | exact Hb]].
    + split; [right; exact Hin|]. intros x [<-|Hx]; [|apply Hle, Hx].
      apply Qlt_le_weak, Qnot_le_lt. intros Hc. apply Qle_bool_iff in Hc. congruence.
  - apply maxQ_None in E as ->. intros [= <-]. split; [left; reflexivity|].
    intros x [<-|[]]. apply Qle_refl.
Qed.

Lemma nums_spec vs xs :
  nums vs = Ok xs ->
  (forall q, In (VNum q) vs -> In q xs)
  /\ (forall v, In v vs -> v = VNull \/ exists q, v = VNum q).
Proof.
  revert xs. induction vs as [|v vs IH]; intros xs; cbn.
  - intros _. split; intros ? [].
  - destruct v as [|q|s|d]; cbn; try discriminate.
    + intros H. destruct (IH xs H) as [H1 H2]. split.
      * intros q [Hq|Hq]; [discriminate|]. apply H1, Hq.
      * intros w [<-|Hw]; [left; reflexivity | apply H2, Hw].
    + destruct (nums vs) as [ys|] eqn:E; cbn; [|discriminate]. intros [= <-].
      destruct (IH ys eq_refl) as [H1 H2]. split.
      * intros q' [Hq|Hq]; [injection Hq as ->; left; reflexivity | right; apply H1, Hq].
      * intros w [<-|Hw]; [right; exists q; reflexivity | apply H2, Hw].
Qed.

Lemma forR_id {A} (vs : list A) (f : A -> res A) :
  (forall v, In v vs -> f v = Ok v) -> forR vs f = Ok vs.
Proof.
  induction vs as [|v vs IH]; intros Hf; cbn; [reflexivity|].
  rewrite (Hf v (or_introl eq_refl)). cbn. rewrite IH; [reflexivity|].
  intros w Hw. apply Hf. right. exact Hw.
Qed.

Lemma filter_all {A} (f : A -> bool) xs :
  (forall x, In x xs -> f x = true) -> List.filter f xs = xs.
Proof.
  induction xs as [|x xs IH]; intros Hf; cbn; [reflexivity|].
  rewrite (Hf x (or_introl eq_refl)), IH; [reflexivity|]. intros y Hy. apply Hf. right. exact Hy.
Qed.

(** Clipping to bounds that enclose every number of a column changes nothing. *)
Lemma clip_within col xs lo hi :
  nums (cells col) = Ok xs ->
  (forall x, In x xs -> (lo <= x)%Q /\ (x <= hi)%Q) ->
  clip col (Some lo) (Some hi) = Ok col.
Proof.
  intros Hn Hb. destruct (nums_spec _ _ Hn) as [H1 H2]. unfold clip.
  rewrite forR_id; [destruct col; reflexivity|].
  intros v Hv. destruct (H2 v Hv) as [->|[q ->]]; [reflexivity|].
  destruct (Hb q (H1 q Hv)) as [Hlo Hhi]. cbn.
  apply Qle_bool_iff in Hlo. apply Qle_bool_iff in Hhi. rewrite Hlo. cbn. rewrite Hhi. reflexivity.
Qed.

(** Clipping a column without numbers changes nothing. *)
Lemma clip_no_numbers col :
  nums (cells col) = Ok [] -> clip col None None = Ok col.
Proof.
  intros Hn. destruct (nums_spec _ _ Hn) as [H1 H2]. unfold clip.
  rewrite forR_id; [destruct col; reflexivity|].
  intros v Hv. destruct (H2 v Hv) as [->|[q ->]]; reflexivity.
Qed.

Lemma setitem_absent T c col :
  ~ In c (columns T) ->
  map (fun p => if String.eqb (fst p) c then (c, col) else p) T = T.
Proof.
  induction T as [|[c' col'] T IH]; intros Hn; cbn; [reflexivity|].
  destruct (String.eqb c' c) eqn:E.
  - apply String.eqb_eq in E. subst. exfalso. apply Hn. left. reflexivity.
  - f_equal. apply IH. intros Hc. apply Hn. right. exact Hc.
Qed.

Lemma setitem_getitem T c col :
  NoDup (columns T) -> getitem T c = Ok col -> setitem T c col = T.
Proof.
  intros Hnd Hg. unfold setitem.
  assert (Hm : mem c (columns T) = true).
  { apply mem_In. unfold getitem in Hg. destruct (find _ T) as [[c' col']|] eqn:E; [|discriminate].
    apply find_some in E as [Hin Heq]. apply String.eqb_eq in Heq. cbn in Heq.
    apply in_map_iff. exists (c', col'). split; [exact Heq | exact Hin]. }
  rewrite Hm. clear Hm. revert Hnd Hg.
  induction T as [|[c' col'] T IH]; intros Hnd Hg; cbn in *; [discriminate|].
  apply NoDup_cons in Hnd as [Hnin Hnd].
  unfold getitem in Hg. cbn in Hg.
  destruct (String.eqb c' c) eqn:E.
  - injection Hg as <-. apply String.eqb_eq in E. subst. f_equal.
    apply setitem_absent. intros Hi. apply Hnin, list_elem_of_In, Hi.
  - f_equal. apply IH; [exact Hnd | exact Hg].
Qed.

Lemma threshold_fst m T c y : OutlierRemover.threshold m T c = Ok y -> fst y = c.
Proof.
  unfold OutlierRemover.threshold.
  destruct (OutlierRemover.bounds_test m); cbn; [|discriminate].
  destruct (getitem T c); cbn; [|discriminate].
  destruct (nums (cells a0)); cbn; [|discriminate].
  intros [= <-]. reflexivity.
Qed.

Lemma forR_threshold_get m T cs th c :
  forR cs (OutlierRemover.threshold m T) = Ok th -> In c cs ->
  exists b, OutlierRemover.threshold m T c = Ok (c, b) /\ dict_get th c = Ok b.
Proof.
  revert th. induction cs as [|c0 cs IH]; intros th; cbn; [intros _ []|].
  destruct (OutlierRemover.threshold m T c0) as [y|] eqn:E0; cbn; [|discriminate].
  destruct (forR cs _) as [th'|] eqn:E; cbn; [|discriminate]. intros [= <-] Hc.
  pose proof (threshold_fst _ _ _ _ E0) as Hy. unfold dict_get. cbn.
  destruct (String.eqb (fst y) c) eqn:Ec.
  - apply String.eqb_eq in Ec. destruct y as [c' b]. cbn in Hy, Ec. subst.
    exists b. split; [exact E0 | reflexivity].
  - destruct Hc as [<-|Hc].
    + rewrite Hy, String.eqb_refl in Ec. discriminate.
    + exact (IH th' eq_refl Hc).
Qed.

Lemma clip_all_id th cs T :
  NoDup (columns T) ->
  (forall c, In c cs -> exists col b, getitem T c = Ok col /\ dict_get th c = Ok b
                                      /\ clip col (fst b) (snd b) = Ok col) ->
  clip_all th cs T = Ok T.
Proof.
  intros Hnd. induction cs as [|c cs IH]; intros Hc; cbn; [reflexivity|].
  destruct (Hc c (or_introl eq_refl)) as (col & b & H1 & H2 & H3).
  rewrite H1; cbn. rewrite H2; cbn. rewrite H3; cbn.
  rewrite setitem_getitem by assumption. apply IH.
  intros c' Hc'. apply Hc. right. exact Hc'.
Qed.

Lemma skip_filter_all xs : List.filter (in_interval (skip_bounds xs)) xs = xs.
Proof.
  apply filter_all. intros x Hx. unfold skip_bounds.
  destruct (minQ xs) as [lo|] eqn:E1; [|apply minQ_None in E1; subst; destruct Hx].
  destruct (maxQ xs) as [hi|] eqn:E2; [|apply maxQ_None in E2; subst; destruct Hx].
  cbn. apply andb_true_intro. split; apply Qle_bool_iff.
  - apply (proj2 (minQ_spec _ _ E1)), Hx.
  - apply (proj2 (maxQ_spec _ _ E2)), Hx.
Qed.

Lemma threshold_skip T c y :
  OutlierRemover.threshold "skip" T c = Ok y ->
  exists col xs, getitem T c = Ok col /\ nums (cells col) = Ok xs
                 /\ y = (c, (minQ xs, maxQ xs)).
Proof.
  unfold OutlierRemover.threshold. cbn [OutlierRemover.bounds_test String.eqb bindR].
  destruct (getitem T c) as [col|]; cbn; [|discriminate].
  destruct (nums (cells col)) as [xs|] eqn:E; cbn; [|discriminate].
  intros [= <-]. exists col, xs. split; [reflexivity|]. split; [exact E|].
  rewrite skip_filter_all. reflexivity.
Qed.

Lemma clip_min_max col xs :
  nums (cells col) = Ok xs -> clip col (minQ xs) (maxQ xs) = Ok col.
Proof.
  intros Hn. destruct (minQ xs) as [lo|] eqn:E1.
  - destruct (maxQ xs) as [hi|] eqn:E2.
    + apply (clip_within col xs); [exact Hn|]. intros x Hx. split.
      * apply (proj2 (minQ_spec _ _ E1)), Hx.
      * apply (proj2 (maxQ_spec _ _ E2)), Hx.
    + apply maxQ_None in E2. subst. discriminate.
  - apply minQ_None in E1. subst. destruct (maxQ_None [] eq_refl). apply clip_no_numbers, Hn.
Qed.

(** ** C6 *)

(** With method ["skip"], on columns of numbers ([threshold] reads numeric
    cells only, so a string column makes this [fit] fail where pandas'
    [min] and [max] succeed, and the statement is then vacuous): [fit]
    stores for each present configured column the minimum and maximum of
    its numbers in the fitting table; [transform] of the fitting table then
    returns it unchanged (or raises Not-Fitted when no configured column
    was present), while a later table is clipped to those stored values. *)
Theorem outlier_skip_identity_on_fitting_table :
  forall (cols : list string) (o o' : OutlierRemover.t) (l : nat) (h : heap) (T : table),
    OutlierRemover.init (Some cols) "skip" = Ok o ->
    h !! l = Some T -> NoDup (columns T) ->
    fst (OutlierRemover.fit o (OFrame l) h) = Ok o' ->
    exists th,
      OutlierRemover.col_thresholds o' = Some th
      /\ (forall c, In c (OutlierRemover.cols_to_transform o') ->
            exists col xs, getitem T c = Ok col /\ nums (cells col) = Ok xs
                           /\ dict_get th c = Ok (minQ xs, maxQ xs))
      /\ (OutlierRemover.transform o' (OFrame l) (snd (OutlierRemover.fit o (OFrame l) h))
          = (Ok (length h), h ++ [T])
          \/ (th = [] /\ OutlierRemover.transform o' (OFrame l) (snd (OutlierRemover.fit o (OFrame l) h))
                         = (Err (NotFittedError "OutlierRemover transformer was not fitted"), h)))
      /\ (forall (l2 : nat) (h2 : heap) (T2 T2' : table),
            h2 !! l2 = Some T2 -> th <> [] ->
            clip_all th (OutlierRemover.cols_to_transform o') T2 = Ok T2' ->
            OutlierRemover.transform o' (OFrame l2) h2 = (Ok (length h2), h2 ++ [T2'])).
Proof.
  intros cols o o' l h T Hinit HT Hnd Hfit.
  injection Hinit as <-.
  destruct (outlier_fit_spec (OutlierRemover.Build_t cols "skip" None) l h T HT) as [Hh Hs]. rewrite Hh.
  destruct (Hs o' Hfit) as (Hc & Hm & th & Hth & Hf & Hk). cbn in Hc, Hm, Hf, Hk.
  assert (Hcol : forall c, In c (OutlierRemover.cols_to_transform o') ->
            exists col xs, getitem T c = Ok col /\ nums (cells col) = Ok xs
                           /\ dict_get th c = Ok (minQ xs, maxQ xs)).
  { intros c Hin. rewrite Hc in Hin.
    destruct (forR_threshold_get _ _ _ _ c Hf Hin) as (b & Hb & Hd).
    destruct (threshold_skip _ _ _ Hb) as (col & xs & Hg & Hn & Hy).
    injection Hy as Hy. rewrite Hy in Hd. exists col, xs. auto. }
  exists th. split; [exact Hth|]. split; [exact Hcol|]. split.
  - destruct th as [|b th'].
    + right. split; [reflexivity|]. unfold OutlierRemover.transform. rewrite Hth. reflexivity.
    + left. apply (outlier_transform_clips o' (b :: th') l h T T); [exact Hth | discriminate | exact HT|].
      apply clip_all_id; [exact Hnd|]. intros c Hin.
      destruct (Hcol c Hin) as (col & xs & Hg & Hn & Hd).
      exists col, (minQ xs, maxQ xs). split; [exact Hg|]. split; [exact Hd|].
      apply clip_min_max, Hn.
  - intros l2 h2 T2 T2' H2 Hne Hc2. apply (outlier_transform_clips o' th l2 h2 T2 T2'); assumption.
Qed.

Lemma outlier_skip_identity_on_fitting_table_witness :
  exists o o',
    OutlierRemover.init (Some ["col_1"]) "skip" = Ok o
    /\ [skip_example] !! 0%nat = Some skip_example /\ NoDup (columns skip_example)
    /\ fst (OutlierRemover.fit o (OFrame 0) [skip_example]) = Ok o'
    /\ exists th, OutlierRemover.col_thresholds o' = Some th
         /\ (OutlierRemover.transform o' (OFrame 0) (snd (OutlierRemover.fit o (OFrame 0) [skip_example]))
             = (Ok 1%nat, [skip_example; skip_example])
             \/ (th = [] /\ OutlierRemover.transform o' (OFrame 0)
                              (snd (OutlierRemover.fit o (OFrame 0) [skip_example]))
                            = (Err (NotFittedError "OutlierRemover transformer was not fitted"),
                               [skip_example]))).
Proof.
  destruct (OutlierRemover.init (Some ["col_1"]) "skip") as [o|] eqn:Hi; [|discriminate].
  destruct (fst (OutlierRemover.fit o (OFrame 0) [skip_example])) as [o'|] eqn:Hf;
    [|injection Hi as <-; vm_compute in Hf; discriminate].
  exists o, o'.
  assert (Hl : [skip_example] !! 0%nat = Some skip_example) by reflexivity.
  assert (Hn : NoDup (columns skip_example))
    by (constructor; [intros Hx; inversion Hx | constructor]).
  split; [reflexivity|]. split; [exact Hl|]. split; [exact Hn|]. split; [exact Hf|].
  destruct (outlier_skip_identity_on_fitting_table ["col_1"] o o' 0 [skip_example] skip_example
              Hi Hl Hn Hf) as (th & Hth & _ & Hr & _).
  exists th. split; [exact Hth|]. exact Hr.
Defined.

(** C6 (code bug): the docstring and the spec say method ["skip"] never
    changes values, but [fit] stores the fitting table's minimum and
    maximum and [transform] clips every later table to them: fitted on a
    column [0; 1], the remover turns a later table's value 5 into 1. *)
Lemma outlier_skip_clips_later_table :
  match OutlierRemover.init (Some ["a"]) "skip" with
  | Ok o =>
      let h := [[("a", num_col [0; 1]%Z)]; [("a", num_col [5]%Z)]] in
      match OutlierRemover.fit o (OFrame 0) h with
      | (Ok o', h1) =>
          OutlierRemover.transform o' (OFrame 1) h1 = (Ok 2%nat, h1 ++ [[("a", num_col [1]%Z)]])
      | _ => False
      end
  | Err _ => False
  end.
Proof. vm_compute. reflexivity. Qed.

Lemma threshold_bounds m test T c y :
  OutlierRemover.bounds_test m = Ok test ->
  OutlierRemover.threshold m T c = Ok y ->
  exists col xs, getitem T c = Ok col /\ nums (cells col) = Ok xs
                 /\ y = (c, (minQ (List.filter (test xs) xs), maxQ (List.filter (test xs) xs))).
Proof.
  intros Hb. unfold OutlierRemover.threshold. rewrite Hb. cbn [bindR].
  destruct (getitem T c) as [col|]; cbn; [|discriminate].
  destruct (nums (cells col)) as [xs|] eqn:E; cbn; [|discriminate].
  intros [= <-]. exists col, xs. split; [reflexivity|]. split; [exact E|]. reflexivity.
Qed.

(** ** C7 *)

(** C7: with method ["iqr"], [fit] stores for each present configured
    column the pair (minimum, maximum) of the observed values lying in
    [[Q1 - 1.5 IQR, Q3 + 1.5 IQR]]: each stored value is one of the
    column's values, lies within those bounds, and bounds all in-bound
    values; [transform] clips a table's columns to the stored pairs; and
    on the column [[-51, 1..99, 151]] fit-then-transform yields
    [[1, 1..99, 99]]. *)
Theorem outlier_iqr_stores_observed_in_bound_extremes :
  (forall (cols : list string) (o o' : OutlierRemover.t) (l : nat) (h : heap) (T : table),
    OutlierRemover.init (Some cols) "iqr" = Ok o ->
    h !! l = Some T ->
    fst (OutlierRemover.fit o (OFrame l) h) = Ok o' ->
    exists th,
      OutlierRemover.col_thresholds o' = Some th
      /\ (forall c, In c (OutlierRemover.cols_to_transform o') ->
            exists col xs,
              getitem T c = Ok col /\ nums (cells col) = Ok xs
              /\ dict_get th c = Ok (minQ (List.filter (in_interval (iqr_bounds xs)) xs),
                                     maxQ (List.filter (in_interval (iqr_bounds xs)) xs))
              /\ (forall lo, minQ (List.filter (in_interval (iqr_bounds xs)) xs) = Some lo ->
                    In lo xs /\ in_interval (iqr_bounds xs) lo = true
                    /\ forall x, In x xs -> in_interval (iqr_bounds xs) x = true -> (lo <= x)%Q)
              /\ (forall hi, maxQ (List.filter (in_interval (iqr_bounds xs)) xs) = Some hi ->
                    In hi xs /\ in_interval (iqr_bounds xs) hi = true
                    /\ forall x, In x xs -> in_interval (iqr_bounds xs) x = true -> (x <= hi)%Q))
      /\ (forall (l2 : nat) (h2 : heap) (T2 T2' : table),
            h2 !! l2 = Some T2 -> th <> [] ->
            clip_all th (OutlierRemover.cols_to_transform o') T2 = Ok T2' ->
            OutlierRemover.transform o' (OFrame l2) h2 = (Ok (length h2), h2 ++ [T2'])))
  /\ match OutlierRemover.init (Some ["col_1"]) "iqr" with
     | Ok o => OutlierRemover.fit_transform o (OFrame 0) [iqr_example]
               = (Ok 1%nat, [iqr_example; iqr_expected])
     | Err _ => False
     end.
Proof.
  split; [|vm_compute; reflexivity].
  intros cols o o' l h T Hinit HT Hfit.
  injection Hinit as <-.
  destruct (outlier_fit_spec (OutlierRemover.Build_t cols "iqr" None) l h T HT) as [_ Hs].
  destruct (Hs o' Hfit) as (Hc & _ & th & Hth & Hf & _). cbn in Hc, Hf.
  exists th. split; [exact Hth|]. split.
  - intros c Hin. rewrite Hc in Hin.
    destruct (forR_threshold_get _ _ _ _ c Hf Hin) as (b & Hb & Hd).
    destruct (threshold_bounds "iqr" _ T c _ eq_refl Hb) as (col & xs & Hg & Hn & Hy).
    injection Hy as Hy. rewrite Hy in Hd.
    exists col, xs. split; [exact Hg|]. split; [exact Hn|]. split; [exact Hd|]. split.
    + intros lo Hlo. destruct (minQ_spec _ _ Hlo) as [Hm Hle].
      apply filter_In in Hm as [Hm1 Hm2]. split; [exact Hm1|]. split; [exact Hm2|].
      intros x Hx Hxi. apply Hle, filter_In. auto.
    + intros hi Hhi. destruct (maxQ_spec _ _ Hhi) as [Hm Hle].
      apply filter_In in Hm as [Hm1 Hm2]. split; [exact Hm1|]. split; [exact Hm2|].
      intros x Hx Hxi. apply Hle, filter_In. auto.
  - intros l2 h2 T2 T2' H2 Hne Hc2. apply (outlier_transform_clips o' th l2 h2 T2 T2'); assumption.
Qed.

Lemma outlier_iqr_stores_observed_in_bound_extremes_witness :
  exists o o',
    OutlierRemover.init (Some ["col_1"]) "iqr" = Ok o
    /\ [iqr_example] !! 0%nat = Some iqr_example
    /\ fst (OutlierRemover.fit o (OFrame 0) [iqr_example]) = Ok o'
    /\ exists th, OutlierRemover.col_thresholds o' = Some th.
Proof.
  destruct (OutlierRemover.init (Some ["col_1"]) "iqr") as [o|] eqn:Hi; [|discriminate].
  destruct (fst (OutlierRemover.fit o (OFrame 0) [iqr_example])) as [o'|] eqn:Hf;
    [|injection Hi as <-; vm_compute in Hf; discriminate].
  assert (Hl : [iqr_example] !! 0%nat = Some iqr_example) by reflexivity.
  exists o, o'. split; [reflexivity|]. split; [exact Hl|]. split; [exact Hf|].
  destruct (proj1 outlier_iqr_stores_observed_in_bound_extremes ["col_1"] o o' 0 [iqr_example]
              iqr_example Hi Hl Hf) as (th & Hth & _).
  exists th. exact Hth.
Defined.

Lemma getitem_mem T c col : getitem T c = Ok col -> mem c (columns T) = true.
Proof.
  unfold getitem. destruct (find _ T) as [[c' col']|] eqn:E; [|discriminate]. intros _.
  apply find_some in E as [Hin Heq]. apply String.eqb_eq in Heq. cbn in Heq. subst c'.
  unfold mem. apply existsb_exists. exists c. split; [|apply String.eqb_refl].
  apply in_map_iff. exists (c, col'). auto.
Qed.

Lemma columns_setitem_mem T c col :
  mem c (columns T) = true -> columns (setitem T c col) = columns T.
Proof.
  intros Hm. unfold setitem. rewrite Hm. unfold columns. rewrite map_map.
  apply map_ext. intros [c' x]. cbn. destruct (String.eqb c' c) eqn:E; [|reflexivity].
  apply String.eqb_eq in E. cbn. congruence.
Qed.

Lemma columns_filter (f : string -> bool) (T : table) :
  columns (List.filter (fun p => f (fst p)) T) = List.filter f (columns T).
Proof.
  unfold columns. induction T as [|[c x] T IH]; cbn; [reflexivity|].
  destruct (f c); cbn; rewrite IH; reflexivity.
Qed.

Lemma getitem_setitem_same T c col : getitem (setitem T c col) c = Ok col.
Proof.
  unfold setitem, getitem. destruct (mem c (columns T)) eqn:Hm.
  - induction T as [|[c' x] T IH]; cbn in *; [discriminate|].
    destruct (String.eqb c' c) eqn:E; cbn.
    + rewrite String.eqb_refl. reflexivity.
    + rewrite E. apply IH. unfold mem in Hm. cbn in Hm.
      rewrite (String.eqb_sym c c'), E in Hm. exact Hm.
  - induction T as [|[c' x] T IH]; cbn in *; [rewrite String.eqb_refl; reflexivity|].
    unfold mem in Hm. cbn in Hm. rewrite (String.eqb_sym c c') in Hm.
    destruct (String.eqb c' c) eqn:E; [discriminate|]. apply IH. exact Hm.
Qed.

Lemma drop_one T c : mem c (columns T) = true ->
  drop T [c] = Ok (List.filter (fun p => negb (mem (fst p) [c])) T).
Proof. intros Hm. unfold drop. cbn. rewrite Hm. reflexivity. Qed.

Lemma CalendarExtractor_gen_all dcol :
  forR CalendarExtractor.all_fields (CalendarExtractor.generate dcol)
  = Ok [Some ("year", dt_field dt_year dcol); Some ("month", dt_field dt_month dcol);
        Some ("day", dt_field dt_day dcol); Some ("dayofweek", dt_field dt_dayofweek dcol);
        Some ("dayofyear", dt_field dt_dayofyear dcol); None].
Proof. reflexivity. Qed.

(** ** C2 *)

(** C2 (the code's behaviour): with [calendar_level] unset,
    [CalendarExtractor.transform] of a table whose date column parses
    returns a new frame whose columns are the original ones without the
    date column, followed by only five calendar columns, year, month,
    day, dayofweek and dayofyear: the weekofyear column is computed but
    never appended. *)
Theorem calendar_extractor_unset_level_omits_weekofyear :
  forall (ce : CalendarExtractor.t) (l : nat) (h : heap) (T : table) (dcol dcol' : column),
    CalendarExtractor.calendar_level ce = None ->
    h !! l = Some T -> getitem T (CalendarExtractor.date_col ce) = Ok dcol ->
    to_datetime dcol = Ok dcol' ->
    exists h' T', CalendarExtractor.transform ce (OFrame l) h = (Ok (S (length h)), h')
      /\ h' !! S (length h) = Some T'
      /\ columns T' = List.filter (fun c => negb (mem c [CalendarExtractor.date_col ce])) (columns T)
                      ++ ["year"; "month"; "day"; "dayofweek"; "dayofyear"].
Proof.
  intros ce l h T dcol dcol' Hlv HT Hg Hd.
  pose proof (getitem_mem _ _ _ Hg) as Hm.
  set (d := CalendarExtractor.date_col ce) in *.
  unfold CalendarExtractor.transform. fold d.
  cbv beta iota zeta delta [bindM check_transform check_fill copy frame_of load alloc retM liftR store andb].
  rewrite HT. rewrite list_lookup_middle by reflexivity. rewrite Hg, Hd. cbn [fst snd].
  rewrite list_lookup_insert_eq by (rewrite length_app; cbn; lia).
  rewrite getitem_setitem_same, Hlv. cbn [fst snd].
  rewrite (CalendarExtractor_gen_all dcol'). cbn [fst snd].
  rewrite list_lookup_insert_eq by (rewrite length_app; cbn; lia).
  rewrite drop_one by (rewrite columns_setitem_mem; exact Hm).
  rewrite list_lookup_insert_eq by (rewrite length_insert, length_app; cbn; lia).
  rewrite length_insert, length_insert, length_app, Nat.add_1_r.
  eexists _, _. split; [reflexivity|]. split.
  - rewrite lookup_app_r by (rewrite ?length_insert, ?length_app; cbn; lia).
    rewrite !length_insert, length_app. cbn.
    replace (S (length h) - (length h + 1)) with 0 by lia. reflexivity.
  - unfold columns at 1. rewrite map_app. f_equal.
    pose proof (columns_filter (fun c => negb (mem c [d])) (setitem T d dcol')) as E1.
    cbv beta in E1. unfold columns at 1 in E1. etransitivity; [exact E1|].
    rewrite columns_setitem_mem by exact Hm. reflexivity.
Qed.

Lemma calendar_extractor_unset_level_omits_weekofyear_witness :
  exists dcol dcol',
    getitem calendar_example "date" = Ok dcol /\ to_datetime dcol = Ok dcol'
    /\ exists h' T',
         CalendarExtractor.transform (CalendarExtractor.init "date" None) (OFrame 0) [calendar_example]
         = (Ok 2%nat, h')
         /\ h' !! 2%nat = Some T'
         /\ columns T' = ["year"; "month"; "day"; "dayofweek"; "dayofyear"].
Proof.
  destruct (getitem calendar_example "date") as [dcol|] eqn:Hg; [|discriminate].
  destruct (to_datetime dcol) as [dcol'|] eqn:Hd;
    [|injection Hg as <-; vm_compute in Hd; discriminate].
  exists dcol, dcol'. split; [reflexivity|]. split; [exact Hd|].
  exact (calendar_extractor_unset_level_omits_weekofyear (CalendarExtractor.init "date" None)
           0 [calendar_example] calendar_example dcol dcol' eq_refl eq_refl Hg Hd).
Defined.

(* ================================================================== *)
(** * Further properties of the transformers *)

(** Every [fit] but [CalendarExtractor]'s starts with [check_fill]: given
    anything but a DataFrame it raises [ValueError "X is not pandas
    DataFrame"] and touches no frame.  [CalendarExtractor.fit] accepts
    anything and returns the transformer unchanged. *)
Theorem fit_rejects_non_dataframe :
  forall (sk : estimator -> table -> res fitted) (h : heap)
         (o1 : NoInfoFeatureRemover.t) (o2 : OutlierRemover.t) (o3 : WithAnotherColumnImputer.t)
         (o4 : CatCaster.t) (o5 : FeaturesOrder.t) (o6 : ScalerPicker.t)
         (o7 : SimpleImputerPicker.t) (o8 : CalendarExtractor.t),
    NoInfoFeatureRemover.fit o1 OOther h = (Err (ValueError "X is not pandas DataFrame"), h)
    /\ OutlierRemover.fit o2 OOther h = (Err (ValueError "X is not pandas DataFrame"), h)
    /\ WithAnotherColumnImputer.fit o3 OOther h = (Err (ValueError "X is not pandas DataFrame"), h)
    /\ CatCaster.fit o4 OOther h = (Err (ValueError "X is not pandas DataFrame"), h)
    /\ FeaturesOrder.fit o5 OOther h = (Err (ValueError "X is not pandas DataFrame"), h)
    /\ ScalerPicker.fit sk o6 OOther h = (Err (ValueError "X is not pandas DataFrame"), h)
    /\ SimpleImputerPicker.fit sk o7 OOther h = (Err (ValueError "X is not pandas DataFrame"), h)
    /\ CalendarExtractor.fit o8 OOther h = (Ok o8, h).
Proof. intros. repeat split. Qed.

(** Every [transform], [CalendarExtractor]'s included (its
    [check_transform] with [is_check_fill=False] still calls
    [check_fill]), raises [ValueError "X is not pandas DataFrame"] on
    anything but a DataFrame, and allocates no frame. *)
Theorem transform_rejects_non_dataframe :
  forall (tr : transformer) (h : heap),
    transform tr OOther h = (Err (ValueError "X is not pandas DataFrame"), h).
Proof. intros [s|s|s|s|s|s|s|s] h; reflexivity. Qed.


Lemma reads_ret {A} (a : A) : reads (retM a).
Proof. intros h. reflexivity. Qed.
Lemma reads_throw {A} e : reads (A:=A) (throw e).
Proof. intros h. reflexivity. Qed.
Lemma reads_liftR {A} (r : res A) : reads (liftR r).
Proof. destruct r; intros h; reflexivity. Qed.
Lemma reads_load l : reads (load l).
Proof. intros h. unfold load. destruct (h !! l); reflexivity. Qed.
Lemma reads_check_fill X : reads (check_fill X).
Proof. destruct X; intros h; reflexivity. Qed.
Lemma reads_frame_of X : reads (frame_of X).
Proof. destruct X; [apply reads_load | intros h; reflexivity]. Qed.
Lemma reads_bind {A B} (m : M A) (k : A -> M B) :
  reads m -> (forall a, reads (k a)) -> reads (bindM m k).
Proof.
  intros Hm Hk h. unfold bindM. specialize (Hm h).
  destruct (m h) as [[a|e] h'] eqn:E; cbn in *; [rewrite Hk|]; exact Hm.
Qed.

Ltac reads_solve :=
  repeat match goal with
  | |- reads (bindM _ _) => apply reads_bind; [|intros ?]
  | |- reads (retM _) => apply reads_ret
  | |- reads (throw _) => apply reads_throw
  | |- reads (liftR _) => apply reads_liftR
  | |- reads (load _) => apply reads_load
  | |- reads (check_fill _) => apply reads_check_fill
  | |- reads (frame_of _) => apply reads_frame_of
  | |- reads (if _ then _ else _) => case_match
  | |- reads (match _ with _ => _ end) => case_match
  end.

(** [fit] never writes or allocates a frame: whatever the input and
    whatever happens, every transformer's [fit] leaves all DataFrames as
    they were. *)
Theorem fit_leaves_heap_unchanged :
  forall (sk : estimator -> table -> res fitted) (X : pyobj) (h : heap)
         (o1 : NoInfoFeatureRemover.t) (o2 : OutlierRemover.t) (o3 : WithAnotherColumnImputer.t)
         (o4 : CatCaster.t) (o5 : FeaturesOrder.t) (o6 : ScalerPicker.t)
         (o7 : SimpleImputerPicker.t) (o8 : CalendarExtractor.t),
    snd (NoInfoFeatureRemover.fit o1 X h) = h
    /\ snd (OutlierRemover.fit o2 X h) = h
    /\ snd (WithAnotherColumnImputer.fit o3 X h) = h
    /\ snd (CatCaster.fit o4 X h) = h
    /\ snd (FeaturesOrder.fit o5 X h) = h
    /\ snd (ScalerPicker.fit sk o6 X h) = h
    /\ snd (SimpleImputerPicker.fit sk o7 X h) = h
    /\ snd (CalendarExtractor.fit o8 X h) = h.
Proof.
  intros. repeat split.
  - refine ((_ : reads (NoInfoFeatureRemover.fit o1 X)) h). unfold NoInfoFeatureRemover.fit. reads_solve.
  - refine ((_ : reads (OutlierRemover.fit o2 X)) h). unfold OutlierRemover.fit. reads_solve.
  - refine ((_ : reads (WithAnotherColumnImputer.fit o3 X)) h). unfold WithAnotherColumnImputer.fit. reads_solve.
  - refine ((_ : reads (CatCaster.fit o4 X)) h). unfold CatCaster.fit. reads_solve.
  - refine ((_ : reads (FeaturesOrder.fit o5 X)) h). unfold FeaturesOrder.fit. reads_solve.
  - refine ((_ : reads (ScalerPicker.fit sk o6 X)) h). unfold ScalerPicker.fit. reads_solve.
  - refine ((_ : reads (SimpleImputerPicker.fit sk o7 X)) h). unfold SimpleImputerPicker.fit. reads_solve.
Qed.

Lemma nodup_fst_inj (T : table) p q :
  NoDup (columns T) -> In p T -> In q T -> fst p = fst q -> p = q.
Proof.
  induction T as [|r T IH]; intros Hnd Hp Hq He; [destruct Hp|].
  cbn in Hnd. apply NoDup_cons in Hnd as [Hr Hnd].
  destruct Hp as [<-|Hp], Hq as [<-|Hq]; auto.
  - exfalso. apply Hr, list_elem_of_In. rewrite He. apply in_map, Hq.
  - exfalso. apply Hr, list_elem_of_In. rewrite <- He. apply in_map, Hp.
Qed.

Lemma mem_fst_filter (T : table) (g : string * column -> bool) p :
  NoDup (columns T) -> In p T ->
  mem (fst p) (map fst (List.filter g T)) = g p.
Proof.
  intros Hnd Hp. destruct (g p) eqn:Eg.
  - apply mem_In, in_map, filter_In. auto.
  - destruct (mem _ _) eqn:Em; [|reflexivity]. exfalso.
    apply mem_In, in_map_iff in Em as (q & Hq & Hin). apply filter_In in Hin as [Hin Hg].
    rewrite (nodup_fst_inj T q p Hnd Hin Hp Hq) in Hg. congruence.
Qed.

Lemma find_none_all {A} (f : A -> bool) xs :
  (forall x, In x xs -> f x = false) -> find f xs = None.
Proof.
  induction xs as [|x xs IH]; intros Hf; cbn; [reflexivity|].
  rewrite (Hf x (or_introl eq_refl)). apply IH. intros y Hy. apply Hf. right. exact Hy.
Qed.

Lemma forallb_filter_nil {A} (g : A -> bool) xs :
  forallb g xs = true <-> List.filter (fun x => negb (g x)) xs = [].
Proof.
  induction xs as [|x xs IH]; cbn; [tauto|].
  destruct (g x); cbn; [exact IH|]. split; discriminate.
Qed.


(** [NoInfoFeatureRemover]: after [fit] on a frame, [transform] of the
    same frame returns a new frame holding exactly the columns with more
    than one distinct value or listed in [cols_to_except], in their
    order; when no column is removed it raises [NotFittedError] instead,
    because the fitted list of columns to remove is empty. *)
Theorem no_info_fit_transform_keeps_informative_columns :
  forall (o o' : NoInfoFeatureRemover.t) (l : nat) (h : heap) (T : table),
    h !! l = Some T -> NoDup (columns T) ->
    fst (NoInfoFeatureRemover.fit o (OFrame l) h) = Ok o' ->
    NoInfoFeatureRemover.transform o' (OFrame l) h
    = if forallb (informative (NoInfoFeatureRemover.cols_to_except o)) T
      then (Err (NotFittedError "NoInfoFeatureRemover transformer was not fitted"), h)
      else (Ok (length h), h ++ [List.filter (informative (NoInfoFeatureRemover.cols_to_except o)) T]).
Proof.
  intros o o' l h T HT Hnd Hfit.
  unfold NoInfoFeatureRemover.fit, bindM, check_fill, frame_of, load, retM in Hfit.
  rewrite HT in Hfit. cbn in Hfit. injection Hfit as <-.
  set (ex := NoInfoFeatureRemover.cols_to_except o).
  set (rm := List.filter (fun p => Nat.leb (nunique (cells (snd p))) 1 && negb (mem (fst p) ex)) T).
  assert (Hrm : rm = List.filter (fun p => negb (informative ex p)) T).
  { apply filter_ext. intros p. unfold informative. destruct (Nat.leb _ _), (mem _ _); reflexivity. }
  assert (Hall : forallb (informative ex) T = true <-> rm = []).
  { rewrite Hrm. apply forallb_filter_nil. }
  unfold NoInfoFeatureRemover.transform.
  cbv beta iota zeta delta [bindM check_transform check_fill frame_of load alloc retM liftR throw
                            truthy_list NoInfoFeatureRemover.cols_to_remove].
  fold ex. fold rm.
  destruct (forallb (informative ex) T) eqn:Ef.
  - rewrite (proj1 Hall eq_refl). reflexivity.
  - assert (Hne : match map fst rm with [] => false | _ :: _ => true end = true).
    { destruct (map fst rm) eqn:Em; [|reflexivity]. exfalso.
      apply map_eq_nil in Em. apply Hall in Em. discriminate. }
    rewrite Hne. cbn [andb negb]. rewrite HT.
    unfold drop. rewrite find_none_all.
    2:{ intros c Hc. apply in_map_iff in Hc as (p & <- & Hp).
        unfold rm in Hp. apply filter_In in Hp as [Hp _].
        apply negb_false_iff, mem_In, in_map, Hp. }
    cbv beta iota. f_equal. f_equal. f_equal.
    apply filter_ext_in. intros p Hp. rewrite Hrm. rewrite mem_fst_filter by assumption.
    apply negb_involutive.
Qed.

Lemma getitem_in T c col : getitem T c = Ok col -> In (c, col) T.
Proof.
  unfold getitem. destruct (find _ T) as [[c' col']|] eqn:E; [|discriminate]. intros [= <-].
  apply find_some in E as [Hin Heq]. apply String.eqb_eq in Heq. cbn in Heq. subst. exact Hin.
Qed.

Lemma getitem_present T c : In c (columns T) -> exists col, getitem T c = Ok col.
Proof.
  unfold getitem. intros Hc. destruct (find _ T) as [[c' col']|] eqn:E; [eauto|].
  exfalso. apply in_map_iff in Hc as (p & <- & Hp).
  pose proof (find_none _ _ E p Hp) as Hf. cbn in Hf. rewrite String.eqb_refl in Hf. discriminate.
Qed.

Lemma getitems_ok T cs :
  (forall c, In c cs -> In c (columns T)) ->
  exists sub, getitems T cs = Ok sub /\ map fst sub = cs /\ (forall p, In p sub -> In p T).
Proof.
  unfold getitems. induction cs as [|c cs IH]; intros Hc; cbn.
  - exists []. split; [reflexivity|]. split; [reflexivity|]. intros p [].
  - destruct (getitem_present T c (Hc c (or_introl eq_refl))) as [col Hg]. rewrite Hg. cbn.
    destruct IH as (sub & E & Hf & Hs); [intros c' Hc'; apply Hc; right; exact Hc'|].
    rewrite E. cbn. exists ((c, col) :: sub). split; [reflexivity|]. split; [cbn; congruence|].
    intros p [<-|Hp]; [apply getitem_in, Hg | apply Hs, Hp].
Qed.

Lemma NoDup_columns_table (T : table) : NoDup (columns T) -> NoDup T.
Proof.
  induction T as [|p T IH]; intros Hnd; [constructor|].
  cbn in Hnd. apply NoDup_cons in Hnd as [Hp Hnd]. apply NoDup_cons. split; [|apply IH, Hnd].
  intros Hin. apply Hp, list_elem_of_In, in_map, list_elem_of_In, Hin.
Qed.

Lemma NoDup_list_filter {A} (f : A -> bool) xs : NoDup xs -> NoDup (List.filter f xs).
Proof.
  induction xs as [|x xs IH]; intros Hnd; cbn; [constructor|].
  apply NoDup_cons in Hnd as [Hx Hnd]. destruct (f x); [|apply IH, Hnd].
  apply NoDup_cons. split; [|apply IH, Hnd].
  intros Hin. apply Hx. apply list_elem_of_In in Hin. apply filter_In in Hin as [Hin _].
  apply list_elem_of_In, Hin.
Qed.

(** [FeaturesOrder]: after [fit] on a frame with distinct column names,
    [transform] of the same frame returns a new frame that is a
    permutation of the input, whose columns are the configured ones
    present in the frame (in configured order) followed by the remaining
    columns in frame order.  On a frame without columns it raises
    [NotFittedError]. *)
Theorem features_order_fit_transform_reorders :
  forall (o o' : FeaturesOrder.t) (l : nat) (h : heap) (T : table),
    h !! l = Some T -> NoDup (columns T) -> NoDup (FeaturesOrder.features_order o) ->
    fst (FeaturesOrder.fit o (OFrame l) h) = Ok o' ->
    match T with
    | [] => FeaturesOrder.transform o' (OFrame l) h
            = (Err (NotFittedError "OrderFeatures transformer was not fitted"), h)
    | _ :: _ =>
      exists T', FeaturesOrder.transform o' (OFrame l) h = (Ok (length h), h ++ [T'])
        /\ columns T' = present T (FeaturesOrder.features_order o)
                        ++ List.filter (fun c => negb (mem c (FeaturesOrder.features_order o))) (columns T)
        /\ Permutation T' T
    end.
Proof.
  intros o o' l h T HT Hnd Hnf Hfit.
  unfold FeaturesOrder.fit, bindM, check_fill, frame_of, load, retM in Hfit.
  rewrite HT in Hfit. cbn in Hfit. injection Hfit as <-.
  set (fo1 := List.filter (fun c => mem c (columns T)) (FeaturesOrder.features_order o)).
  set (fo := fo1 ++ List.filter (fun c => negb (mem c fo1)) (columns T)).
  assert (Hrest : List.filter (fun c => negb (mem c fo1)) (columns T)
                  = List.filter (fun c => negb (mem c (FeaturesOrder.features_order o))) (columns T)).
  { apply filter_ext_in. intros c Hc. f_equal. unfold fo1.
    destruct (mem c (FeaturesOrder.features_order o)) eqn:E.
    - apply mem_In, filter_In. split; [apply mem_In, E | apply mem_In, Hc].
    - destruct (mem c (List.filter _ _)) eqn:E'; [|reflexivity].
      apply mem_In, filter_In in E' as [E' _]. apply mem_In in E'. congruence. }
  assert (Hfo : forall c, In c fo <-> In c (columns T)).
  { intros c. unfold fo. rewrite in_app_iff, filter_In. unfold fo1 at 1. rewrite filter_In. split.
    - intros [[_ H]|[H _]]; [apply mem_In, H | exact H].
    - intros H. destruct (mem c fo1) eqn:E.
      + left. unfold fo1 in E. apply mem_In, filter_In in E. exact E.
      + right. split; [exact H | reflexivity]. }
  unfold FeaturesOrder.transform.
  cbv beta iota zeta delta [bindM check_transform check_fill frame_of load alloc retM liftR throw
                            FeaturesOrder.features_order_].
  fold fo1. fold fo.
  destruct T as [|p T0] eqn:ET.
  - subst fo fo1. cbn.
    assert (E0 : forall xs : list string, List.filter (fun _ => false) xs = [])
      by (intros xs; induction xs; cbn; auto).
    rewrite E0. reflexivity.
  - subst T.
    assert (Htr : truthy_list (Some fo) = true).
    { destruct fo as [|c fo'] eqn:Efo; [|reflexivity]. exfalso.
      exact (proj2 (Hfo (fst p)) ltac:(left; reflexivity)). }
    rewrite Htr. cbn [andb negb]. rewrite HT.
    destruct (getitems_ok (p :: T0) fo) as (sub & Eg & Hf & Hs); [intros c; apply Hfo|].
    rewrite Eg. cbn. exists sub. split; [reflexivity|]. split.
    + unfold columns at 1. rewrite Hf. unfold fo. rewrite Hrest. reflexivity.
    + apply NoDup_Permutation.
      * apply NoDup_columns_table. unfold columns. rewrite Hf. unfold fo.
        apply NoDup_app. split; [apply NoDup_list_filter, Hnf|]. split.
        -- intros c Hc Hc'. apply list_elem_of_In in Hc, Hc'. apply filter_In in Hc' as [_ Hc'].
           apply negb_true_iff in Hc'. rewrite (proj2 (mem_In c fo1) Hc) in Hc'. discriminate.
        -- apply NoDup_list_filter, Hnd.
      * apply NoDup_columns_table, Hnd.
      * intros q. rewrite !list_elem_of_In. split; [apply Hs|]. intros Hq.
        assert (Hc : In (fst q) fo) by (apply Hfo, in_map, Hq).
        rewrite <- Hf in Hc. apply in_map_iff in Hc as (q' & Hqq & Hq').
        rewrite (nodup_fst_inj (p :: T0) q' q Hnd (Hs q' Hq') Hq Hqq) in Hq'. exact Hq'.
Qed.

Lemma getitem_err T c e : getitem T c = Err e -> e = KeyError c /\ ~ In c (columns T).
Proof.
  intros Hg. split.
  - unfold getitem in Hg. destruct (find _ T) as [[]|]; congruence.
  - intros Hc. destruct (getitem_present T c Hc) as [col Hc']. congruence.
Qed.

Lemma getitems_missing T cs c :
  In c cs -> ~ In c (columns T) ->
  exists k, In k cs /\ ~ In k (columns T) /\ getitems T cs = Err (KeyError k).
Proof.
  unfold getitems. induction cs as [|c0 cs IH]; intros Hc Hn; [destruct Hc|]. cbn.
  destruct (getitem T c0) as [col|e] eqn:Eg; cbn.
  - destruct Hc as [<-|Hc].
    + exfalso. apply Hn. apply mem_In. eapply getitem_mem, Eg.
    + destruct (IH Hc Hn) as (k & Hk & Hkn & E). rewrite E. cbn.
      exists k. split; [right; exact Hk|]. auto.
  - apply getitem_err in Eg as [-> Hn0]. exists c0. split; [left; reflexivity|]. auto.
Qed.

Lemma drop_missing T cs c :
  In c cs -> ~ In c (columns T) ->
  exists k, In k cs /\ ~ In k (columns T) /\ drop T cs = Err (KeyError k).
Proof.
  intros Hc Hn. unfold drop.
  destruct (find (fun c => negb (mem c (columns T))) cs) as [k|] eqn:E.
  - apply find_some in E as [Hk Hm]. exists k. split; [exact Hk|]. split; [|reflexivity].
    intros Hk'. apply mem_In in Hk'. rewrite Hk' in Hm. discriminate.
  - exfalso. pose proof (find_none _ _ E c Hc) as Hf. cbn in Hf.
    apply negb_false_iff, mem_In in Hf. contradiction.
Qed.

(** A column that was fitted but is missing from the frame given to
    [transform] makes [NoInfoFeatureRemover], [FeaturesOrder] and
    [CatCaster] raise [KeyError] naming some fitted column that is
    missing; only [CatCaster], which copies first, has allocated a frame. *)
Theorem transform_missing_fitted_column_raises_key_error :
  forall (l : nat) (h : heap) (T : table) (c : string)
         (o1 : NoInfoFeatureRemover.t) (rm : list string)
         (o2 : FeaturesOrder.t) (fo : list string) (o3 : CatCaster.t),
    h !! l = Some T -> ~ In c (columns T) ->
    NoInfoFeatureRemover.cols_to_remove o1 = Some rm -> In c rm ->
    FeaturesOrder.features_order_ o2 = Some fo -> In c fo ->
    In c (CatCaster.cols_to_cast o3) ->
    (exists k, In k rm /\ ~ In k (columns T)
               /\ NoInfoFeatureRemover.transform o1 (OFrame l) h = (Err (KeyError k), h))
    /\ (exists k, In k fo /\ ~ In k (columns T)
                  /\ FeaturesOrder.transform o2 (OFrame l) h = (Err (KeyError k), h))
    /\ (exists k, In k (CatCaster.cols_to_cast o3) /\ ~ In k (columns T)
                  /\ CatCaster.transform o3 (OFrame l) h = (Err (KeyError k), h ++ [T])).
Proof.
  intros l h T c o1 rm o2 fo o3 HT Hn H1 Hrm H2 Hfo Hcc. split; [|split].
  - destruct (drop_missing T rm c Hrm Hn) as (k & Hk & Hkn & E).
    exists k. split; [exact Hk|]. split; [exact Hkn|].
    unfold NoInfoFeatureRemover.transform. rewrite H1.
    assert (Ht : truthy_list (Some rm) = true) by (destruct rm; [destruct Hrm | reflexivity]).
    cbv beta iota zeta delta [bindM check_transform check_fill frame_of load alloc retM liftR throw].
    rewrite Ht. cbn [andb negb]. rewrite HT, E. reflexivity.
  - destruct (getitems_missing T fo c Hfo Hn) as (k & Hk & Hkn & E).
    exists k. split; [exact Hk|]. split; [exact Hkn|].
    unfold FeaturesOrder.transform. rewrite H2.
    assert (Ht : truthy_list (Some fo) = true) by (destruct fo; [destruct Hfo | reflexivity]).
    cbv beta iota zeta delta [bindM check_transform check_fill frame_of load alloc retM liftR throw].
    rewrite Ht. cbn [andb negb]. rewrite HT, E. reflexivity.
  - destruct (getitems_missing T _ c Hcc Hn) as (k & Hk & Hkn & E).
    exists k. split; [exact Hk|]. split; [exact Hkn|].
    unfold CatCaster.transform.
    cbv beta iota zeta delta [bindM check_transform check_fill copy frame_of load alloc retM liftR throw].
    cbn [andb negb]. rewrite HT. cbv beta iota. rewrite lookup_app_l by (apply lookup_lt_Some in HT; exact HT).
    rewrite HT, E. reflexivity.
Qed.












Lemma existsb_filter_nil {A} (f : A -> bool) xs :
  List.filter f xs = [] -> existsb f xs = false.
Proof.
  induction xs as [|x xs IH]; cbn; [reflexivity|].
  destruct (f x); [discriminate|]. exact IH.
Qed.

Lemma existsb_filter_cons {A} (f : A -> bool) xs y ys :
  List.filter f xs = y :: ys -> existsb f xs = true.
Proof.
  intros E. apply existsb_exists. exists y.
  assert (Hy : In y (List.filter f xs)) by (rewrite E; left; reflexivity).
  apply filter_In in Hy. exact Hy.
Qed.

Lemma bounds_test_unknown m :
  ~ In m ["iqr"; "std"; "quantile"; "skip"] ->
  OutlierRemover.bounds_test m = Err (ValueError ("unknown method " ++ m ++ " for outlier remover")).
Proof.
  intros Hm. unfold OutlierRemover.bounds_test.
  destruct (String.eqb_spec m "iqr"); [subst; exfalso; apply Hm; cbn; tauto|].
  destruct (String.eqb_spec m "std"); [subst; exfalso; apply Hm; cbn; tauto|].
  destruct (String.eqb_spec m "quantile"); [subst; exfalso; apply Hm; cbn; tauto|].
  destruct (String.eqb_spec m "skip"); [subst; exfalso; apply Hm; cbn; tauto|].
  reflexivity.
Qed.

(** [OutlierRemover] with a method other than iqr, std, quantile and skip:
    [fit] raises [ValueError "unknown method ... for outlier remover"]
    exactly when a configured column is present in the frame; otherwise
    it succeeds with no columns and empty thresholds, and the fitted
    transformer then raises [NotFittedError] on every frame. *)
Theorem outlier_unknown_method_raises :
  forall (o : OutlierRemover.t) (l : nat) (h : heap) (T : table),
    h !! l = Some T ->
    ~ In (OutlierRemover.method o) ["iqr"; "std"; "quantile"; "skip"] ->
    OutlierRemover.fit o (OFrame l) h
    = (if existsb (fun c => mem c (columns T)) (OutlierRemover.cols_to_transform o)
       then Err (ValueError ("unknown method " ++ OutlierRemover.method o ++ " for outlier remover"))
       else Ok {| OutlierRemover.cols_to_transform := [];
                  OutlierRemover.method := OutlierRemover.method o;
                  OutlierRemover.col_thresholds := Some [] |}, h)
    /\ (forall l' h',
          OutlierRemover.transform {| OutlierRemover.cols_to_transform := [];
                                      OutlierRemover.method := OutlierRemover.method o;
                                      OutlierRemover.col_thresholds := Some [] |} (OFrame l') h'
          = (Err (NotFittedError "OutlierRemover transformer was not fitted"), h')).
Proof.
  intros o l h T HT Hm. split; [|reflexivity].
  unfold OutlierRemover.fit, bindM, check_fill, frame_of, load, liftR, retM, throw.
  rewrite HT. cbn [fst snd].
  destruct (List.filter (fun c => mem c (columns T)) (OutlierRemover.cols_to_transform o))
    as [|c cs] eqn:E.
  - rewrite (existsb_filter_nil _ _ E). reflexivity.
  - rewrite (existsb_filter_cons _ _ _ _ E). cbn [forR].
    unfold OutlierRemover.threshold at 1. rewrite (bounds_test_unknown _ Hm). reflexivity.
Qed.





Lemma get_scaler_class_unknown t :
  ~ In t ["standard"; "minmax"; "robust"; "power"; "skip"] ->
  ScalerPicker.get_scaler_class t
  = Err (ValueError ("unknown scaler type " ++ t ++ " should be standard or minmax")).
Proof.
  intros Ht. unfold ScalerPicker.get_scaler_class.
  repeat match goal with |- context [String.eqb t ?s] =>
    destruct (String.eqb_spec t s); [subst; exfalso; apply Ht; cbn; tauto|] end.
  reflexivity.
Qed.

(** [ScalerPicker.fit] with a scaler type other than standard, minmax,
    robust, power and skip raises [ValueError "unknown scaler type ...
    should be standard or minmax"] on every DataFrame. *)
Theorem scaler_unknown_type_raises :
  forall sk (o : ScalerPicker.t) (l : nat) (h : heap) (T : table),
    h !! l = Some T ->
    ~ In (ScalerPicker.scaler_type o) ["standard"; "minmax"; "robust"; "power"; "skip"] ->
    ScalerPicker.fit sk o (OFrame l) h
    = (Err (ValueError ("unknown scaler type " ++ ScalerPicker.scaler_type o
                        ++ " should be standard or minmax")), h).
Proof.
  intros sk o l h T HT Ht.
  unfold ScalerPicker.fit, bindM, check_fill, frame_of, load, liftR, retM, throw.
  rewrite HT. cbn [fst snd]. rewrite (get_scaler_class_unknown _ Ht). reflexivity.
Qed.

(** [ScalerPicker] with scaler type skip: [fit] keeps the present columns
    and stores the marker ["skip"] without calling any scaler, and the
    fitted transformer returns an unchanged copy of every frame. *)
Theorem scaler_skip_fit_transform_copies :
  forall sk (o : ScalerPicker.t) (l : nat) (h : heap) (T : table),
    h !! l = Some T -> ScalerPicker.scaler_type o = "skip" ->
    ScalerPicker.fit sk o (OFrame l) h
    = (Ok {| ScalerPicker.cols_to_scale := present T (ScalerPicker.cols_to_scale o);
             ScalerPicker.scaler_type := "skip";
             ScalerPicker.scaler := Some ScalerPicker.SkipScaler |}, h)
    /\ forall o', fst (ScalerPicker.fit sk o (OFrame l) h) = Ok o' ->
       forall l' h' T', h' !! l' = Some T' ->
       ScalerPicker.transform o' (OFrame l') h' = (Ok (length h'), h' ++ [T']).
Proof.
  intros sk o l h T HT Ht.
  assert (Hf : ScalerPicker.fit sk o (OFrame l) h
    = (Ok {| ScalerPicker.cols_to_scale := present T (ScalerPicker.cols_to_scale o);
             ScalerPicker.scaler_type := "skip";
             ScalerPicker.scaler := Some ScalerPicker.SkipScaler |}, h)).
  { unfold ScalerPicker.fit, bindM, check_fill, frame_of, load, liftR, retM, throw.
    rewrite HT. cbn [fst snd]. rewrite Ht. reflexivity. }
  split; [exact Hf|]. rewrite Hf. intros o' [= <-] l' h' T' HT'.
  unfold ScalerPicker.transform.
  cbv beta iota zeta delta [bindM check_transform check_fill copy frame_of load alloc retM
                            andb negb].
  cbn [ScalerPicker.scaler]. rewrite HT'. reflexivity.
Qed.

Lemma getitem_setitem_other T c col k :
  k <> c -> getitem (setitem T c col) k = getitem T k.
Proof.
  intros Hk. unfold setitem, getitem.
  destruct (mem c (columns T)).
  - induction T as [|[c' x] T IH]; cbn; [reflexivity|].
    destruct (String.eqb_spec c' c) as [->|Hc]; cbn.
    + destruct (String.eqb_spec c k); [congruence|]. apply IH.
    + destruct (String.eqb_spec c' k); [reflexivity|]. apply IH.
  - induction T as [|[c' x] T IH]; cbn.
    + destruct (String.eqb_spec c k); [congruence|reflexivity].
    + destruct (String.eqb c' k); [reflexivity|]. apply IH.
Qed.

Lemma setitems_other T cs df k :
  ~ In k cs -> getitem (setitems T cs df) k = getitem T k.
Proof.
  revert T df. induction cs as [|c cs IH]; intros T [|[c' col] df] Hk; cbn; try reflexivity.
  rewrite IH by (intros H; apply Hk; right; exact H).
  apply getitem_setitem_other. intros ->. apply Hk. left. reflexivity.
Qed.

Lemma setitems_columns T cs df :
  (forall c, In c cs -> mem c (columns T) = true) -> columns (setitems T cs df) = columns T.
Proof.
  revert T df. induction cs as [|c cs IH]; intros T [|[c' col] df] Hc; cbn; try reflexivity.
  assert (Hm : mem c (columns T) = true) by (apply Hc; left; reflexivity).
  rewrite IH.
  - apply columns_setitem_mem, Hm.
  - intros k Hk. rewrite columns_setitem_mem by exact Hm. apply Hc. right. exact Hk.
Qed.

Lemma getitems_mem T cs sub :
  getitems T cs = Ok sub -> forall c, In c cs -> mem c (columns T) = true.
Proof.
  unfold getitems. revert sub. induction cs as [|c0 cs IH]; intros sub; cbn; [intros _ _ []|].
  destruct (getitem T c0) as [col|] eqn:E; cbn; [|discriminate].
  destruct (forR cs _) as [sub'|] eqn:E'; cbn; [|discriminate]. intros _ c [<-|Hc].
  - eapply getitem_mem, E.
  - apply (IH sub' eq_refl c Hc).
Qed.

(** [ScalerPicker.transform], when it succeeds, returns a new frame with
    the same column names as its input, in which every column outside
    [cols_to_scale] is unchanged. *)
Theorem scaler_transform_touches_only_scaled_columns :
  forall (o : ScalerPicker.t) (l : nat) (h : heap) (T : table) (l' : nat) (h' : heap),
    h !! l = Some T ->
    ScalerPicker.transform o (OFrame l) h = (Ok l', h') ->
    l' = length h /\
    exists T', h' = h ++ [T'] /\ columns T' = columns T
               /\ forall k, ~ In k (ScalerPicker.cols_to_scale o) -> getitem T' k = getitem T k.
Proof.
  intros o l h T l' h' HT Htr. unfold ScalerPicker.transform in Htr.
  cbv beta iota zeta delta [bindM check_transform check_fill copy frame_of load alloc retM liftR
                            throw store andb negb] in Htr.
  destruct (ScalerPicker.scaler o) as [[|f]|]; cbn in Htr; [| |discriminate];
    rewrite HT in Htr; cbn in Htr.
  - injection Htr as <- <-. split; [reflexivity|]. exists T. auto.
  - rewrite list_lookup_middle in Htr by reflexivity.
    destruct (getitems T (ScalerPicker.cols_to_scale o)) as [sub|] eqn:Eg; cbn in Htr;
      [|discriminate].
    destruct (f sub) as [out|]; cbn in Htr; [|discriminate].
    injection Htr as <- <-. split; [reflexivity|].
    exists (setitems T (ScalerPicker.cols_to_scale o) out). split; [|split].
    + rewrite <- (Nat.add_0_r (length h)) at 1. rewrite insert_app_r. reflexivity.
    + apply setitems_columns. eapply getitems_mem, Eg.
    + intros k Hk. apply setitems_other, Hk.
Qed.

Lemma simple_imputer_fit_unfold sk (o : SimpleImputerPicker.t) (l : nat) (h : heap) (T : table) :
  h !! l = Some T -> existsb (fun p => all_null (snd p)) T = false ->
  SimpleImputerPicker.fit sk o (OFrame l) h =
  (let cfg := match SimpleImputerPicker.cols_to_impute o with Some c => c | None => SimpleImputerPicker.CIndex (columns T) end in
   let mk imp := {| SimpleImputerPicker.strategy := SimpleImputerPicker.strategy o; SimpleImputerPicker.cols_to_impute := Some cfg;
                    SimpleImputerPicker.imputer := Some imp |} in
   if String.eqb (SimpleImputerPicker.strategy o) "constant" then
     match cfg with
     | SimpleImputerPicker.CDict d => let! gs := liftR (forR d (SimpleImputerPicker.fit_group sk T)) in
                      retM (mk (SimpleImputerPicker.IGroups (CalendarExtractor.somes gs)))
     | SimpleImputerPicker.CList _ => throw (AttributeError "'list' object has no attribute 'items'")
     | SimpleImputerPicker.CIndex _ => throw (AttributeError "'Index' object has no attribute 'items'")
     end
   else if existsb (String.eqb (SimpleImputerPicker.strategy o)) ["mean"; "median"; "most_frequent"] then
     let! sub := liftR (getitems T (SimpleImputerPicker.present_cols cfg T)) in
     let! f := liftR (sk (SimpleImputer (SimpleImputerPicker.strategy o) None) sub) in
     retM (mk (SimpleImputerPicker.IShared f))
   else if String.eqb (SimpleImputerPicker.strategy o) "max" then
     let! fs := liftR (forR (SimpleImputerPicker.present_cols cfg T) (SimpleImputerPicker.fit_max sk T)) in
     retM (mk (SimpleImputerPicker.IPerCol fs))
   else throw (ValueError ("unknown strategy " ++ SimpleImputerPicker.strategy o
                           ++ " should be constant, mean, median or most_frequent"))) h.
Proof.
  intros HT Hn. unfold SimpleImputerPicker.fit.
  cbv beta iota zeta delta [bindM check_fill frame_of load retM].
  rewrite HT. cbv beta iota. rewrite Hn. reflexivity.
Qed.

(** [SimpleImputerPicker.fit] on a frame without an entirely-null column:
    the constant strategy with a list of columns, or with no columns
    given, raises [AttributeError] (it calls [.items()] on a list or an
    Index), and a strategy other than constant, mean, median,
    most_frequent and max raises [ValueError "unknown strategy ..."]. *)
Theorem simple_imputer_fit_configuration_errors :
  forall sk (o : SimpleImputerPicker.t) (l : nat) (h : heap) (T : table),
    h !! l = Some T -> existsb (fun p => all_null (snd p)) T = false ->
    (SimpleImputerPicker.strategy o = "constant" ->
       match SimpleImputerPicker.cols_to_impute o with
       | Some (SimpleImputerPicker.CList _) =>
           SimpleImputerPicker.fit sk o (OFrame l) h
           = (Err (AttributeError "'list' object has no attribute 'items'"), h)
       | Some (SimpleImputerPicker.CIndex _) | None =>
           SimpleImputerPicker.fit sk o (OFrame l) h
           = (Err (AttributeError "'Index' object has no attribute 'items'"), h)
       | Some (SimpleImputerPicker.CDict _) => True
       end)
    /\ (~ In (SimpleImputerPicker.strategy o) ["constant"; "mean"; "median"; "most_frequent"; "max"] ->
        SimpleImputerPicker.fit sk o (OFrame l) h
        = (Err (ValueError ("unknown strategy " ++ SimpleImputerPicker.strategy o
                            ++ " should be constant, mean, median or most_frequent")), h)).
Proof.
  intros sk o l h T HT Hn. rewrite (simple_imputer_fit_unfold sk o l h T HT Hn). split.
  - intros ->. cbn -[forR]. destruct (SimpleImputerPicker.cols_to_impute o) as [[]|]; reflexivity.
  - intros Hs. cbv zeta. cbn [existsb orb].
    repeat match goal with |- context [String.eqb (SimpleImputerPicker.strategy o) ?s] =>
      destruct (String.eqb_spec (SimpleImputerPicker.strategy o) s) as [e|]; [exfalso; apply Hs; rewrite e; cbn; tauto|] end.
    cbn [existsb orb]. reflexivity.
Qed.

Lemma fit_max_forR sk T cs fs :
  forR cs (SimpleImputerPicker.fit_max sk T) = Ok fs ->
  map fst fs = cs
  /\ forall c f, In (c, f) fs ->
     exists col m, getitem T c = Ok col /\ py_max (cells col) = Ok m
                   /\ sk (SimpleImputer "constant" (Some m)) [(c, col)] = Ok f.
Proof.
  revert fs. induction cs as [|c0 cs IH]; intros fs; cbn.
  - intros [= <-]. split; [reflexivity|]. intros ? ? [].
  - destruct (SimpleImputerPicker.fit_max sk T c0) as [p|] eqn:E0; cbn; [|discriminate].
    destruct (forR cs _) as [fs'|] eqn:E; cbn; [|discriminate]. intros [= <-].
    destruct (IH fs' eq_refl) as [Hk Hp].
    unfold SimpleImputerPicker.fit_max in E0.
    destruct (getitem T c0) as [col|] eqn:G; cbn in E0; [|discriminate].
    destruct (py_max (cells col)) as [m|] eqn:Pm; cbn in E0; [|discriminate].
    unfold getitems in E0. cbn in E0. rewrite G in E0. cbn in E0.
    destruct (sk _ _) as [f0|] eqn:Sk; cbn in E0; [|discriminate]. injection E0 as <-.
    split; [cbn; f_equal; exact Hk|].
    intros c f [Hcf|Hcf].
    + injection Hcf as <- <-. exists col, m. auto.
    + apply Hp, Hcf.
Qed.

(** [SimpleImputerPicker] with the max strategy: [fit] stores one imputer
    per present configured column, in order, each a constant imputer
    whose fill value is that column's maximum. *)
Theorem simple_imputer_max_fills_with_column_max :
  forall sk (o o' : SimpleImputerPicker.t) (l : nat) (h : heap) (T : table),
    h !! l = Some T -> SimpleImputerPicker.strategy o = "max" ->
    fst (SimpleImputerPicker.fit sk o (OFrame l) h) = Ok o' ->
    let cfg := match SimpleImputerPicker.cols_to_impute o with
               | Some c => c | None => SimpleImputerPicker.CIndex (columns T) end in
    exists fs, SimpleImputerPicker.imputer o' = Some (SimpleImputerPicker.IPerCol fs)
      /\ map fst fs = SimpleImputerPicker.present_cols cfg T
      /\ forall c f, In (c, f) fs ->
         exists col m, getitem T c = Ok col /\ py_max (cells col) = Ok m
                       /\ sk (SimpleImputer "constant" (Some m)) [(c, col)] = Ok f.
Proof.
  intros sk o o' l h T HT Hs Hfit cfg.
  destruct (existsb (fun p => all_null (snd p)) T) eqn:Hn.
  - unfold SimpleImputerPicker.fit in Hfit.
    cbv beta iota zeta delta [bindM check_fill frame_of load retM throw] in Hfit.
    rewrite HT, Hn in Hfit. discriminate.
  - rewrite (simple_imputer_fit_unfold sk o l h T HT Hn) in Hfit. cbv zeta in Hfit.
    rewrite Hs in Hfit. cbn -[forR SimpleImputerPicker.present_cols] in Hfit. fold cfg in Hfit.
    unfold bindM, liftR, retM in Hfit.
    destruct (forR (SimpleImputerPicker.present_cols cfg T) (SimpleImputerPicker.fit_max sk T)) as [fs|] eqn:E;
      cbn in Hfit; [|discriminate].
    injection Hfit as <-. exists fs. split; [reflexivity|]. apply fit_max_forR, E.
Qed.

(** [SimpleImputerPicker] with the mean, median or most_frequent strategy:
    [fit] fits one imputer on the present configured columns only, but
    [transform] hands that imputer the whole copied frame, and returns
    the imputer's output as a further new frame. *)
Theorem simple_imputer_shared_imputer_gets_whole_frame :
  forall sk (o o' : SimpleImputerPicker.t) (l : nat) (h : heap) (T : table),
    h !! l = Some T -> In (SimpleImputerPicker.strategy o) ["mean"; "median"; "most_frequent"] ->
    fst (SimpleImputerPicker.fit sk o (OFrame l) h) = Ok o' ->
    let cfg := match SimpleImputerPicker.cols_to_impute o with
               | Some c => c | None => SimpleImputerPicker.CIndex (columns T) end in
    exists sub f,
      getitems T (SimpleImputerPicker.present_cols cfg T) = Ok sub
      /\ sk (SimpleImputer (SimpleImputerPicker.strategy o) None) sub = Ok f
      /\ SimpleImputerPicker.imputer o' = Some (SimpleImputerPicker.IShared f)
      /\ forall l2 h2 T2, h2 !! l2 = Some T2 ->
         SimpleImputerPicker.transform o' (OFrame l2) h2
         = match f T2 with
           | Ok out => (Ok (S (length h2)), h2 ++ [T2; out])
           | Err e => (Err e, h2 ++ [T2])
           end.
Proof.
  intros sk o o' l h T HT Hs Hfit cfg.
  assert (Hc : String.eqb (SimpleImputerPicker.strategy o) "constant" = false /\
               String.eqb (SimpleImputerPicker.strategy o) "max" = false /\
               existsb (String.eqb (SimpleImputerPicker.strategy o)) ["mean"; "median"; "most_frequent"] = true).
  { destruct Hs as [<-|[<-|[<-|[]]]]; repeat split; reflexivity. }
  destruct Hc as (Hc1 & Hc2 & Hc3).
  destruct (existsb (fun p => all_null (snd p)) T) eqn:Hn.
  - unfold SimpleImputerPicker.fit in Hfit.
    cbv beta iota zeta delta [bindM check_fill frame_of load retM throw] in Hfit.
    rewrite HT, Hn in Hfit. discriminate.
  - rewrite (simple_imputer_fit_unfold sk o l h T HT Hn) in Hfit. cbv zeta in Hfit.
    rewrite Hc1, Hc3 in Hfit. fold cfg in Hfit.
    unfold bindM, liftR, retM in Hfit.
    destruct (getitems T (SimpleImputerPicker.present_cols cfg T)) as [sub|] eqn:E1; cbn in Hfit; [|discriminate].
    destruct (sk _ sub) as [f|] eqn:E2; cbn in Hfit; [|discriminate].
    injection Hfit as <-. exists sub, f. split; [reflexivity|]. split; [exact E2|].
    split; [reflexivity|]. intros l2 h2 T2 HT2.
    unfold SimpleImputerPicker.transform.
    cbv beta iota zeta delta [bindM check_transform check_fill copy frame_of load alloc retM liftR
                              throw andb negb SimpleImputerPicker.truthy_imputer].
    cbn [SimpleImputerPicker.imputer SimpleImputerPicker.strategy]. rewrite Hc1, Hc2. rewrite HT2. cbv beta iota.
    rewrite list_lookup_middle by reflexivity.
    destruct (f T2); cbn; [|reflexivity].
    rewrite length_app, Nat.add_comm. cbn. rewrite <- app_assoc. reflexivity.
Qed.

Lemma fit_group_forR sk T d gs :
  forR d (SimpleImputerPicker.fit_group sk T) = Ok gs ->
  map fst (CalendarExtractor.somes gs)
  = List.filter (fun cs => match cs with [] => false | _ => true end)
                (map (fun g => present T (fst g)) d).
Proof.
  revert gs. induction d as [|g d IH]; intros gs; cbn.
  - intros [= <-]. reflexivity.
  - destruct (SimpleImputerPicker.fit_group sk T g) as [r|] eqn:E0; cbn; [|discriminate].
    destruct (forR d _) as [gs'|] eqn:E; cbn; [|discriminate]. intros [= <-].
    unfold SimpleImputerPicker.fit_group in E0. unfold present.
    destruct (List.filter (fun c => mem c (columns T)) (fst g)) as [|c cs] eqn:Ef.
    + injection E0 as <-. cbn. apply IH. reflexivity.
    + destruct (getitems T (c :: cs)); cbn in E0; [|discriminate].
      destruct (sk _ _); cbn in E0; [|discriminate]. injection E0 as <-.
      cbn. f_equal. apply IH. reflexivity.
Qed.

(** [SimpleImputerPicker] with the constant strategy and a dict: the
    fitted imputers are keyed, in dict order, by the present columns of
    each key tuple, and key tuples with no present column are skipped. *)
Theorem simple_imputer_constant_groups_are_present_key_columns :
  forall sk (o o' : SimpleImputerPicker.t) (d : list (list string * value)) (l : nat)
         (h : heap) (T : table),
    h !! l = Some T -> SimpleImputerPicker.strategy o = "constant" ->
    SimpleImputerPicker.cols_to_impute o = Some (SimpleImputerPicker.CDict d) ->
    fst (SimpleImputerPicker.fit sk o (OFrame l) h) = Ok o' ->
    exists gs, SimpleImputerPicker.imputer o' = Some (SimpleImputerPicker.IGroups gs)
      /\ map fst gs = List.filter (fun cs => match cs with [] => false | _ => true end)
                                  (map (fun g => present T (fst g)) d).
Proof.
  intros sk o o' d l h T HT Hs Hd Hfit.
  destruct (existsb (fun p => all_null (snd p)) T) eqn:Hn.
  - unfold SimpleImputerPicker.fit in Hfit.
    cbv beta iota zeta delta [bindM check_fill frame_of load retM throw] in Hfit.
    rewrite HT, Hn in Hfit. discriminate.
  - rewrite (simple_imputer_fit_unfold sk o l h T HT Hn) in Hfit. cbv zeta in Hfit.
    rewrite Hs, Hd in Hfit. cbn -[forR] in Hfit.
    unfold bindM, liftR, retM in Hfit.
    destruct (forR d (SimpleImputerPicker.fit_group sk T)) as [gs|] eqn:E; cbn in Hfit; [|discriminate].
    injection Hfit as <-. eexists. split; [reflexivity|]. apply (fit_group_forR sk T d), E.
Qed.

Lemma calendar_generate_fields dcol ws :
  (forall w, In w ws -> In w CalendarExtractor.all_fields) ->
  exists gen, forR ws (CalendarExtractor.generate dcol) = Ok gen
              /\ map fst (CalendarExtractor.somes gen)
                 = List.filter (fun w => negb (String.eqb w "weekofyear")) ws.
Proof.
  induction ws as [|w ws IH]; intros Hw; cbn; [exists []; auto|].
  destruct IH as (gen & E & Hn); [intros w' H; apply Hw; right; exact H|].
  rewrite E.
  destruct (Hw w (or_introl eq_refl)) as [<-|[<-|[<-|[<-|[<-|[<-|[]]]]]]];
    cbn; eexists; (split; [reflexivity|]); cbn; rewrite ?Hn; reflexivity.
Qed.

Lemma py_slice_upto_incl {A} (xs : list A) k x : In x (py_slice_upto xs k) -> In x xs.
Proof.
  unfold py_slice_upto. intros H.
  destruct (0 <=? k)%Z;
    [rewrite <- (firstn_skipn (Z.to_nat k) xs) | rewrite <- (firstn_skipn (Z.to_nat (Z.of_nat (length xs) + k)) xs)];
    apply in_or_app; left; exact H.
Qed.

Lemma filter_setitem_date T d x :
  mem d (columns T) = true ->
  List.filter (fun p => negb (mem (fst p) [d])) (setitem T d x)
  = List.filter (fun p => negb (String.eqb (fst p) d)) T.
Proof.
  intros Hm. unfold setitem. rewrite Hm. clear Hm.
  induction T as [|[c col] T IH]; cbn; [reflexivity|].
  destruct (String.eqb_spec c d) as [->|Hc]; cbn.
  - rewrite String.eqb_refl. cbn. exact IH.
  - unfold mem. cbn. destruct (String.eqb_spec c d); [congruence|]. cbn. f_equal. exact IH.
Qed.

(** [CalendarExtractor.transform] for any [calendar_level], on a frame
    whose date column parses: the result is the input without the date
    column, its other columns unchanged and in order, followed by the
    calendar columns generated from [what_to_generate[:calendar_level]];
    their names are that slice without weekofyear. *)
Theorem calendar_extractor_output_layout :
  forall (ce : CalendarExtractor.t) (l : nat) (h : heap) (T : table) (dcol dcol' : column),
    h !! l = Some T -> getitem T (CalendarExtractor.date_col ce) = Ok dcol ->
    to_datetime dcol = Ok dcol' ->
    let wtg := match CalendarExtractor.calendar_level ce with
               | Some k => py_slice_upto CalendarExtractor.all_fields k
               | None => CalendarExtractor.all_fields
               end in
    exists gen h' T',
      forR wtg (CalendarExtractor.generate dcol') = Ok gen
      /\ CalendarExtractor.transform ce (OFrame l) h = (Ok (S (length h)), h')
      /\ h' !! S (length h) = Some T'
      /\ T' = List.filter (fun p => negb (String.eqb (fst p) (CalendarExtractor.date_col ce))) T
              ++ CalendarExtractor.somes gen
      /\ map fst (CalendarExtractor.somes gen)
         = List.filter (fun w => negb (String.eqb w "weekofyear")) wtg.
Proof.
  intros ce l h T dcol dcol' HT Hg Hd wtg.
  pose proof (getitem_mem _ _ _ Hg) as Hm.
  destruct (calendar_generate_fields dcol' wtg) as (gen & Eg & Hn).
  { intros w Hw. unfold wtg in Hw. destruct (CalendarExtractor.calendar_level ce);
      [eapply py_slice_upto_incl, Hw | exact Hw]. }
  set (d := CalendarExtractor.date_col ce) in *.
  unfold CalendarExtractor.transform. fold d. fold wtg.
  cbv beta iota zeta delta [bindM check_transform check_fill copy frame_of load alloc retM liftR store andb].
  rewrite HT. rewrite list_lookup_middle by reflexivity. rewrite Hg, Hd. cbn [fst snd].
  rewrite list_lookup_insert_eq by (rewrite length_app; cbn; lia).
  rewrite getitem_setitem_same. cbn [fst snd]. rewrite Eg. cbn [fst snd].
  rewrite list_lookup_insert_eq by (rewrite length_app; cbn; lia).
  rewrite drop_one by (rewrite columns_setitem_mem; exact Hm).
  rewrite list_lookup_insert_eq by (rewrite length_insert, length_app; cbn; lia).
  rewrite length_insert, length_insert, length_app, Nat.add_1_r.
  exists gen. eexists _, _. split; [reflexivity|]. split; [reflexivity|]. split; [|split].
  - rewrite lookup_app_r by (rewrite ?length_insert, ?length_app; cbn; lia).
    rewrite !length_insert, length_app. cbn.
    replace (S (length h) - (length h + 1)) with 0 by lia. reflexivity.
  - f_equal. etransitivity; [|apply (filter_setitem_date T d dcol' Hm)]. reflexivity.
  - exact Hn.
Qed.

(** [CalendarExtractor.transform] raises [KeyError] naming the date column
    when the frame lacks it, and passes on the error of [pd.to_datetime]
    when the date column does not parse. *)
Theorem calendar_extractor_date_column_errors :
  forall (ce : CalendarExtractor.t) (l : nat) (h : heap) (T : table),
    h !! l = Some T ->
    (~ In (CalendarExtractor.date_col ce) (columns T) ->
       CalendarExtractor.transform ce (OFrame l) h
       = (Err (KeyError (CalendarExtractor.date_col ce)), h ++ [T]))
    /\ (forall dcol e, getitem T (CalendarExtractor.date_col ce) = Ok dcol ->
          to_datetime dcol = Err e ->
          CalendarExtractor.transform ce (OFrame l) h = (Err e, h ++ [T])).
Proof.
  intros ce l h T HT.
  unfold CalendarExtractor.transform.
  cbv beta iota zeta delta [bindM check_transform check_fill copy frame_of load alloc retM liftR store andb].
  rewrite HT. rewrite list_lookup_middle by reflexivity. split.
  - intros Hn. destruct (getitem T _) as [col|e] eqn:Eg.
    + exfalso. apply Hn. apply mem_In. eapply getitem_mem, Eg.
    + apply getitem_err in Eg as [-> _]. reflexivity.
  - intros dcol e Hg Hd. rewrite Hg, Hd. reflexivity.
Qed.

Lemma filter_idem {A} (f : A -> bool) xs : List.filter f (List.filter f xs) = List.filter f xs.
Proof.
  induction xs as [|x xs IH]; cbn; [reflexivity|].
  destruct (f x) eqn:E; cbn; [rewrite E, IH|exact IH]. reflexivity.
Qed.

(** Refitting on the same frame changes nothing: for [OutlierRemover],
    [ScalerPicker], [CatCaster] and [WithAnotherColumnImputer], fitting
    the fitted transformer again on the frame it was fitted on returns
    it unchanged. *)
Theorem refit_on_same_frame_is_stable :
  forall (l : nat) (h : heap) (T : table),
    h !! l = Some T ->
    (forall o o1 : OutlierRemover.t,
       fst (OutlierRemover.fit o (OFrame l) h) = Ok o1 ->
       OutlierRemover.fit o1 (OFrame l) h = (Ok o1, h))
    /\ (forall sk (o o1 : ScalerPicker.t),
          fst (ScalerPicker.fit sk o (OFrame l) h) = Ok o1 ->
          ScalerPicker.fit sk o1 (OFrame l) h = (Ok o1, h))
    /\ (forall o o1 : CatCaster.t,
          fst (CatCaster.fit o (OFrame l) h) = Ok o1 ->
          CatCaster.fit o1 (OFrame l) h = (Ok o1, h))
    /\ (forall o o1 : WithAnotherColumnImputer.t,
          fst (WithAnotherColumnImputer.fit o (OFrame l) h) = Ok o1 ->
          WithAnotherColumnImputer.fit o1 (OFrame l) h = (Ok o1, h)).
Proof.
  intros l h T HT. split; [|split; [|split]].
  - intros o o1 Hf. unfold OutlierRemover.fit, bindM, check_fill, frame_of, load, liftR, retM, throw in *.
    rewrite HT in *. cbn [fst snd] in *.
    destruct (forR _ _) as [th|e] eqn:E in Hf; cbn in Hf; [|discriminate]. injection Hf as <-.
    cbn [OutlierRemover.cols_to_transform OutlierRemover.method]. rewrite filter_idem, E.
    reflexivity.
  - intros sk o o1 Hf. unfold ScalerPicker.fit, bindM, check_fill, frame_of, load, liftR, retM, throw in *.
    rewrite HT in *. cbn [fst snd] in *.
    destruct (ScalerPicker.get_scaler_class _) as [[e|]|err] eqn:E1; cbn [fst snd] in Hf;
      [| injection Hf as <-; cbn [ScalerPicker.cols_to_scale ScalerPicker.scaler_type];
         rewrite filter_idem, E1; reflexivity | discriminate].
    destruct (getitems _ _) as [sub|] eqn:E2; cbn [fst snd] in Hf; [|discriminate].
    destruct (sk e sub) as [f|] eqn:E3; cbn [fst snd] in Hf; [|discriminate].
    injection Hf as <-. cbn [ScalerPicker.cols_to_scale ScalerPicker.scaler_type].
    rewrite filter_idem, E1. cbn [fst snd]. rewrite E2. cbn [fst snd]. rewrite E3. reflexivity.
  - intros o o1 Hf. unfold CatCaster.fit, bindM, check_fill, frame_of, load, retM in *.
    rewrite HT in *. cbn [fst snd] in *. injection Hf as <-. cbn [CatCaster.cols_to_cast].
    rewrite filter_idem. reflexivity.
  - intros o o1 Hf. unfold WithAnotherColumnImputer.fit, bindM, check_fill, frame_of, load, retM in *.
    rewrite HT in *. cbn [fst snd] in *. injection Hf as <-.
    cbn [WithAnotherColumnImputer.cols_to_impute]. rewrite filter_idem. reflexivity.
Qed.

Lemma impute_into_step l cs f h U :
  h !! l = Some U ->
  SimpleImputerPicker.impute_into l cs f h
  = match getitems U cs with
    | Ok sub => match f sub with
                | Ok out => (Ok tt, <[l := setitems U cs out]> h)
                | Err e => (Err e, h)
                end
    | Err e => (Err e, h)
    end.
Proof.
  intros HU. unfold SimpleImputerPicker.impute_into, bindM, load, liftR, retM, throw, store.
  rewrite HU. destruct (getitems U cs); [|reflexivity]. destruct (f a); reflexivity.
Qed.

Lemma impute_loop {A} (K : A -> list string) (F : A -> fitted) (l : nat) gs :
  forall h U h',
    h !! l = Some U ->
    forM gs (fun g => SimpleImputerPicker.impute_into l (K g) (F g)) h = (Ok tt, h') ->
    exists U', h' = <[l := U']> h /\ columns U' = columns U
               /\ forall k, (forall g, In g gs -> ~ In k (K g)) -> getitem U' k = getitem U k.
Proof.
  induction gs as [|g gs IH]; intros h U h' HU Hf.
  - cbn in Hf. injection Hf as <-. exists U. rewrite list_insert_id by exact HU. auto.
  - cbn [forM] in Hf. unfold bindM at 1 in Hf. rewrite (impute_into_step _ _ _ _ _ HU) in Hf.
    destruct (getitems U (K g)) as [sub|] eqn:Eg; [|discriminate].
    destruct (F g sub) as [out|]; [|discriminate].
    assert (Hl : l < length h) by (apply lookup_lt_Some in HU; exact HU).
    destruct (IH (<[l := setitems U (K g) out]> h) (setitems U (K g) out) h') as (U' & -> & Hc & Hk).
    + apply list_lookup_insert_eq. exact Hl.
    + exact Hf.
    + exists U'. split; [rewrite list_insert_insert_eq; reflexivity|]. split.
      * rewrite Hc. apply setitems_columns. eapply getitems_mem, Eg.
      * intros k Hn. rewrite Hk by (intros g' Hg'; apply Hn; right; exact Hg').
        apply setitems_other. apply Hn. left. reflexivity.
Qed.

(** [SimpleImputerPicker.transform] with the constant or max strategy,
    when it succeeds, returns a new frame with the same column names as
    its input, in which every column outside the fitted imputers' keys
    is unchanged. *)
Theorem simple_imputer_transform_touches_only_fitted_columns :
  forall (o : SimpleImputerPicker.t) (l : nat) (h : heap) (T : table) (l' : nat) (h' : heap),
    h !! l = Some T ->
    SimpleImputerPicker.transform o (OFrame l) h = (Ok l', h') ->
    let keys := match SimpleImputerPicker.imputer o with
                | Some (SimpleImputerPicker.IGroups d) => concat (map fst d)
                | Some (SimpleImputerPicker.IPerCol d) => map fst d
                | _ => []
                end in
    (SimpleImputerPicker.strategy o = "constant" \/ SimpleImputerPicker.strategy o = "max") ->
    l' = length h /\
    exists T', h' = h ++ [T'] /\ columns T' = columns T
               /\ forall k, ~ In k keys -> getitem T' k = getitem T k.
Proof.
  intros o l h T l' h' HT Htr keys Hs. unfold SimpleImputerPicker.transform in Htr.
  cbv beta iota zeta delta [bindM check_transform check_fill copy frame_of load alloc retM
                            throw andb negb] in Htr.
  destruct (SimpleImputerPicker.truthy_imputer (SimpleImputerPicker.imputer o)); cbn in Htr;
    [|discriminate].
  rewrite HT in Htr.
  assert (HL : (h ++ [T]) !! length h = Some T) by (apply list_lookup_middle; reflexivity).
  destruct Hs as [Hs|Hs]; rewrite Hs in Htr; cbn in Htr.
  - unfold keys. destruct (SimpleImputerPicker.imputer o) as [[d|f|d]|]; try discriminate.
    destruct (forM d _ (h ++ [T])) as [[[]|e] h2] eqn:Ef; cbn in Htr; [|discriminate].
    injection Htr as <- <-. split; [reflexivity|].
    destruct (impute_loop fst snd (length h) d _ T h2 HL Ef) as (U' & -> & Hc & Hk).
    exists U'. split; [rewrite <- (Nat.add_0_r (length h)) at 1; rewrite insert_app_r; reflexivity|].
    split; [exact Hc|]. intros k Hk'. apply Hk. intros g Hg Hin. apply Hk'.
    apply in_concat. exists (fst g). split; [apply in_map, Hg | exact Hin].
  - unfold keys. destruct (SimpleImputerPicker.imputer o) as [[d|f|d]|]; try discriminate.
    destruct (forM d _ (h ++ [T])) as [[[]|e] h2] eqn:Ef; cbn in Htr; [|discriminate].
    injection Htr as <- <-. split; [reflexivity|].
    destruct (impute_loop (fun g => [fst g]) snd (length h) d _ T h2 HL Ef) as (U' & -> & Hc & Hk).
    exists U'. split; [rewrite <- (Nat.add_0_r (length h)) at 1; rewrite insert_app_r; reflexivity|].
    split; [exact Hc|]. intros k Hk'. apply Hk. intros g Hg [Hin|[]]. apply Hk'.
    subst k. apply in_map, Hg.
Qed.


Ltac nodup_solve := apply (bool_decide_unpack _); vm_compute; reflexivity.


Lemma no_info_fit_transform_keeps_informative_columns_witness :
  exists o', fst (NoInfoFeatureRemover.fit (NoInfoFeatureRemover.init None false)
                                           (OFrame 0) [extra_frame]) = Ok o'
  /\ NoInfoFeatureRemover.transform o' (OFrame 0) [extra_frame]
     = (Ok 1%nat, [extra_frame; List.filter (informative []) extra_frame]).
Proof.
  eexists. split; [reflexivity|].
  rewrite (no_info_fit_transform_keeps_informative_columns
             (NoInfoFeatureRemover.init None false) _ 0 [extra_frame] extra_frame
             eq_refl ltac:(nodup_solve) eq_refl).
  reflexivity.
Defined.

Lemma features_order_fit_transform_reorders_witness :
  exists o', fst (FeaturesOrder.fit (FeaturesOrder.init ["b"; "z"; "a"]) (OFrame 0) [extra_frame])
             = Ok o'
  /\ exists T', FeaturesOrder.transform o' (OFrame 0) [extra_frame] = (Ok 1%nat, [extra_frame] ++ [T'])
     /\ columns T' = present extra_frame ["b"; "z"; "a"]
                     ++ List.filter (fun c => negb (mem c ["b"; "z"; "a"])) (columns extra_frame)
     /\ Permutation T' extra_frame.
Proof.
  eexists. split; [reflexivity|].
  exact (features_order_fit_transform_reorders (FeaturesOrder.init ["b"; "z"; "a"]) _ 0
           [extra_frame] extra_frame eq_refl ltac:(nodup_solve) ltac:(nodup_solve) eq_refl).
Defined.

Lemma transform_missing_fitted_column_raises_key_error_witness :
  let o1 := {| NoInfoFeatureRemover.cols_to_remove := Some ["z"];
               NoInfoFeatureRemover.cols_to_except := []; NoInfoFeatureRemover.verbose := false |} in
  let o2 := {| FeaturesOrder.features_order := ["z"]; FeaturesOrder.features_order_ := Some ["z"; "a"] |} in
  let o3 := CatCaster.init ["a"; "z"] in
  (exists k, In k ["z"] /\ ~ In k (columns extra_frame)
             /\ NoInfoFeatureRemover.transform o1 (OFrame 0) [extra_frame] = (Err (KeyError k), [extra_frame]))
  /\ (exists k, In k ["z"; "a"] /\ ~ In k (columns extra_frame)
                /\ FeaturesOrder.transform o2 (OFrame 0) [extra_frame] = (Err (KeyError k), [extra_frame]))
  /\ (exists k, In k (CatCaster.cols_to_cast o3) /\ ~ In k (columns extra_frame)
                /\ CatCaster.transform o3 (OFrame 0) [extra_frame]
                   = (Err (KeyError k), [extra_frame] ++ [extra_frame])).
Proof.
  intros o1 o2 o3.
  apply (transform_missing_fitted_column_raises_key_error 0 [extra_frame] extra_frame "z"
           o1 ["z"] o2 ["z"; "a"] o3); cbn; try reflexivity; try tauto.
  intros [H|[H|[H|[]]]]; discriminate.
Defined.




Lemma outlier_unknown_method_raises_witness :
  OutlierRemover.fit {| OutlierRemover.cols_to_transform := ["a"; "zz"]; OutlierRemover.method := "mad";
                        OutlierRemover.col_thresholds := None |} (OFrame 0) [extra_frame]
  = (Err (ValueError "unknown method mad for outlier remover"), [extra_frame])
  /\ OutlierRemover.fit {| OutlierRemover.cols_to_transform := ["zz"]; OutlierRemover.method := "mad";
                           OutlierRemover.col_thresholds := None |} (OFrame 0) [extra_frame]
     = (Ok {| OutlierRemover.cols_to_transform := []; OutlierRemover.method := "mad";
              OutlierRemover.col_thresholds := Some [] |}, [extra_frame]).
Proof.
  split.
  - exact (proj1 (outlier_unknown_method_raises
                    {| OutlierRemover.cols_to_transform := ["a"; "zz"]; OutlierRemover.method := "mad";
                       OutlierRemover.col_thresholds := None |} 0 [extra_frame] extra_frame
                    eq_refl ltac:(cbn; intros [H|[H|[H|[H|[]]]]]; discriminate))).
  - exact (proj1 (outlier_unknown_method_raises
                    {| OutlierRemover.cols_to_transform := ["zz"]; OutlierRemover.method := "mad";
                       OutlierRemover.col_thresholds := None |} 0 [extra_frame] extra_frame
                    eq_refl ltac:(cbn; intros [H|[H|[H|[H|[]]]]]; discriminate))).
Defined.


Lemma scaler_unknown_type_raises_witness :
  ScalerPicker.fit sk_identity (ScalerPicker.init ["a"] "maxabs") (OFrame 0) [extra_frame]
  = (Err (ValueError "unknown scaler type maxabs should be standard or minmax"), [extra_frame]).
Proof.
  exact (scaler_unknown_type_raises sk_identity (ScalerPicker.init ["a"] "maxabs") 0 [extra_frame]
           extra_frame eq_refl ltac:(cbn; intros [H|[H|[H|[H|[H|[]]]]]]; discriminate)).
Defined.

Lemma scaler_skip_fit_transform_copies_witness :
  exists o', fst (ScalerPicker.fit sk_identity (ScalerPicker.init ["a"; "zz"] "skip") (OFrame 0) [extra_frame])
             = Ok o'
  /\ ScalerPicker.transform o' (OFrame 0) [extra_frame] = (Ok 1%nat, [extra_frame] ++ [extra_frame]).
Proof.
  eexists. split; [reflexivity|].
  exact (proj2 (scaler_skip_fit_transform_copies sk_identity (ScalerPicker.init ["a"; "zz"] "skip") 0
                  [extra_frame] extra_frame eq_refl eq_refl) _ eq_refl 0 [extra_frame] extra_frame eq_refl).
Defined.


Lemma scaler_transform_touches_only_scaled_columns_witness :
  let o := {| ScalerPicker.cols_to_scale := ["b"]; ScalerPicker.scaler_type := "standard";
              ScalerPicker.scaler := Some (ScalerPicker.FittedScaler negate_numbers) |} in
  exists l' h', ScalerPicker.transform o (OFrame 0) [extra_frame] = (Ok l', h')
  /\ l' = 1%nat
  /\ exists T', h' = [extra_frame] ++ [T'] /\ columns T' = columns extra_frame
                /\ forall k, ~ In k ["b"] -> getitem T' k = getitem extra_frame k.
Proof.
  intros o. do 2 eexists. split; [reflexivity|].
  exact (scaler_transform_touches_only_scaled_columns o 0 [extra_frame] extra_frame _ _ eq_refl eq_refl).
Defined.

Lemma simple_imputer_fit_configuration_errors_witness :
  SimpleImputerPicker.fit sk_identity
    {| SimpleImputerPicker.strategy := "constant";
       SimpleImputerPicker.cols_to_impute := Some (SimpleImputerPicker.CList ["a"]);
       SimpleImputerPicker.imputer := None |} (OFrame 0) [extra_frame]
  = (Err (AttributeError "'list' object has no attribute 'items'"), [extra_frame])
  /\ SimpleImputerPicker.fit sk_identity
       {| SimpleImputerPicker.strategy := "mode"; SimpleImputerPicker.cols_to_impute := None;
          SimpleImputerPicker.imputer := None |} (OFrame 0) [extra_frame]
     = (Err (ValueError "unknown strategy mode should be constant, mean, median or most_frequent"),
        [extra_frame]).
Proof.
  split.
  - exact (proj1 (simple_imputer_fit_configuration_errors sk_identity
                    {| SimpleImputerPicker.strategy := "constant";
                       SimpleImputerPicker.cols_to_impute := Some (SimpleImputerPicker.CList ["a"]);
                       SimpleImputerPicker.imputer := None |} 0 [extra_frame] extra_frame
                    eq_refl eq_refl) eq_refl).
  - exact (proj2 (simple_imputer_fit_configuration_errors sk_identity
                    {| SimpleImputerPicker.strategy := "mode"; SimpleImputerPicker.cols_to_impute := None;
                       SimpleImputerPicker.imputer := None |} 0 [extra_frame] extra_frame
                    eq_refl eq_refl)
             ltac:(cbn; intros [H|[H|[H|[H|[H|[]]]]]]; discriminate)).
Defined.


Lemma simple_imputer_max_fills_with_column_max_witness :
  let o := {| SimpleImputerPicker.strategy := "max"; SimpleImputerPicker.cols_to_impute := None;
              SimpleImputerPicker.imputer := None |} in
  exists o', fst (SimpleImputerPicker.fit sk_identity o (OFrame 0) [max_example]) = Ok o'
  /\ exists fs, SimpleImputerPicker.imputer o' = Some (SimpleImputerPicker.IPerCol fs)
     /\ map fst fs = ["a"; "b"]
     /\ forall c f, In (c, f) fs ->
        exists col m, getitem max_example c = Ok col /\ py_max (cells col) = Ok m
                      /\ sk_identity (SimpleImputer "constant" (Some m)) [(c, col)] = Ok f.
Proof.
  intros o. eexists. split; [reflexivity|].
  exact (simple_imputer_max_fills_with_column_max sk_identity o _ 0 [max_example] max_example
           eq_refl eq_refl eq_refl).
Defined.

Lemma simple_imputer_shared_imputer_gets_whole_frame_witness :
  let o := {| SimpleImputerPicker.strategy := "mean";
              SimpleImputerPicker.cols_to_impute := Some (SimpleImputerPicker.CList ["a"]);
              SimpleImputerPicker.imputer := None |} in
  exists o', fst (SimpleImputerPicker.fit sk_identity o (OFrame 0) [max_example]) = Ok o'
  /\ exists sub f,
       getitems max_example ["a"] = Ok sub
       /\ sk_identity (SimpleImputer "mean" None) sub = Ok f
       /\ SimpleImputerPicker.imputer o' = Some (SimpleImputerPicker.IShared f)
       /\ SimpleImputerPicker.transform o' (OFrame 0) [max_example]
          = match f max_example with
            | Ok out => (Ok 2%nat, [max_example] ++ [max_example; out])
            | Err e => (Err e, [max_example] ++ [max_example])
            end.
Proof.
  intros o. eexists. split; [reflexivity|].
  destruct (simple_imputer_shared_imputer_gets_whole_frame sk_identity o _ 0 [max_example] max_example
              eq_refl ltac:(cbn; tauto) eq_refl) as (sub & f & H1 & H2 & H3 & H4).
  exists sub, f. split; [exact H1|]. split; [exact H2|]. split; [exact H3|].
  exact (H4 0 [max_example] max_example eq_refl).
Defined.

Lemma simple_imputer_constant_groups_are_present_key_columns_witness :
  let d := [(["a"; "zz"], VNum 0%Q); (["zz"], VNum 1%Q); (["b"], VNum 2%Q)] in
  let o := {| SimpleImputerPicker.strategy := "constant";
              SimpleImputerPicker.cols_to_impute := Some (SimpleImputerPicker.CDict d);
              SimpleImputerPicker.imputer := None |} in
  exists o', fst (SimpleImputerPicker.fit sk_identity o (OFrame 0) [max_example]) = Ok o'
  /\ exists gs, SimpleImputerPicker.imputer o' = Some (SimpleImputerPicker.IGroups gs)
     /\ map fst gs = [["a"]; ["b"]].
Proof.
  intros d o. eexists. split; [reflexivity|].
  exact (simple_imputer_constant_groups_are_present_key_columns sk_identity o _ d 0 [max_example]
           max_example eq_refl eq_refl eq_refl eq_refl).
Defined.


Lemma calendar_extractor_output_layout_witness :
  exists dcol dcol',
    getitem calendar_frame "date" = Ok dcol /\ to_datetime dcol = Ok dcol'
    /\ exists gen h' T',
         forR (py_slice_upto CalendarExtractor.all_fields (-2)) (CalendarExtractor.generate dcol') = Ok gen
         /\ CalendarExtractor.transform (CalendarExtractor.init "date" (Some (-2)%Z)) (OFrame 0) [calendar_frame]
            = (Ok 2%nat, h')
         /\ h' !! 2%nat = Some T'
         /\ T' = List.filter (fun p => negb (String.eqb (fst p) "date")) calendar_frame
                 ++ CalendarExtractor.somes gen
         /\ map fst (CalendarExtractor.somes gen) = ["year"; "month"; "day"; "dayofweek"].
Proof.
  destruct (getitem calendar_frame "date") as [dcol|] eqn:Hg; [|discriminate].
  destruct (to_datetime dcol) as [dcol'|] eqn:Hd;
    [|injection Hg as <-; vm_compute in Hd; discriminate].
  exists dcol, dcol'. split; [reflexivity|]. split; [exact Hd|].
  exact (calendar_extractor_output_layout (CalendarExtractor.init "date" (Some (-2)%Z)) 0 [calendar_frame]
           calendar_frame dcol dcol' eq_refl Hg Hd).
Defined.

Lemma calendar_extractor_date_column_errors_witness :
  CalendarExtractor.transform (CalendarExtractor.init "when" None) (OFrame 0) [calendar_frame]
  = (Err (KeyError "when"), [calendar_frame] ++ [calendar_frame])
  /\ CalendarExtractor.transform (CalendarExtractor.init "d" None) (OFrame 0)
       [[("d", mkcol TStr [VStr "tomorrow"])]]
     = (Err (ValueError "Unknown datetime string format: tomorrow"),
        [[("d", mkcol TStr [VStr "tomorrow"])]] ++ [[("d", mkcol TStr [VStr "tomorrow"])]]).
Proof.
  split.
  - apply (proj1 (calendar_extractor_date_column_errors (CalendarExtractor.init "when" None) 0
                    [calendar_frame] calendar_frame eq_refl)).
    cbn. intros [H|[H|[]]]; discriminate.
  - apply (proj2 (calendar_extractor_date_column_errors (CalendarExtractor.init "d" None) 0
                    [[("d", mkcol TStr [VStr "tomorrow"])]] [("d", mkcol TStr [VStr "tomorrow"])] eq_refl)
             (mkcol TStr [VStr "tomorrow"])); vm_compute; reflexivity.
Defined.

Lemma refit_on_same_frame_is_stable_witness :
  exists o1, fst (OutlierRemover.fit {| OutlierRemover.cols_to_transform := ["a"; "b"; "zz"];
                                        OutlierRemover.method := "iqr";
                                        OutlierRemover.col_thresholds := None |}
                                     (OFrame 0) [max_example]) = Ok o1
  /\ OutlierRemover.fit o1 (OFrame 0) [max_example] = (Ok o1, [max_example]).
Proof.
  eexists. split; [reflexivity|].
  exact (proj1 (refit_on_same_frame_is_stable 0 [max_example] max_example eq_refl)
           {| OutlierRemover.cols_to_transform := ["a"; "b"; "zz"]; OutlierRemover.method := "iqr";
              OutlierRemover.col_thresholds := None |} _ eq_refl).
Defined.

Lemma simple_imputer_transform_touches_only_fitted_columns_witness :
  let o := {| SimpleImputerPicker.strategy := "max";
              SimpleImputerPicker.cols_to_impute := Some (SimpleImputerPicker.CList ["a"]);
              SimpleImputerPicker.imputer := Some (SimpleImputerPicker.IPerCol [("a", negate_numbers)]) |} in
  exists l' h', SimpleImputerPicker.transform o (OFrame 0) [max_example] = (Ok l', h')
  /\ l' = 1%nat
  /\ exists T', h' = [max_example] ++ [T'] /\ columns T' = columns max_example
                /\ forall k, ~ In k ["a"] -> getitem T' k = getitem max_example k.
Proof.
  intros o. do 2 eexists. split; [reflexivity|].
  exact (simple_imputer_transform_touches_only_fitted_columns o 0 [max_example] max_example _ _
           eq_refl eq_refl (or_intror eq_refl)).
Defined.
